(** * Video ingestion pipeline: a shallow embedding of [handler_upload_video.go]

    The development follows the Go source function by function.  Pure
    helpers ([mediaTypeToVideoExtension], [almostEqual], the tail of
    [getVideoAspectRatio], the key formatting) are Rocq functions.  The
    handler is a computation in a small state-and-early-return monad over a
    frame holding the filesystem, the videos table, the stack of deferred
    calls and a log of the external calls made.  Everything the handler
    obtains from outside the file (UUID parsing, JWT validation, multipart
    parsing, the probing and remuxing subprocesses, the random source and
    the object store) is a field of the record [Env]. *)

From Stdlib Require Import ZArith NArith String Ascii List Bool Lia.
From Stdlib Require Import Floats.SpecFloat.
From stdpp Require Import base sets gmap strings.

Local Open Scope Z_scope.
Local Open Scope string_scope.

(* ================================================================= *)
(** ** Go values: errors, results, float64 *)

Definition error := string.

Inductive result (A : Type) : Type :=
| Ok (a : A)
| Err (e : error).
Arguments Ok {A} a.
Arguments Err {A} e.

(** IEEE 754 binary64, as the specification-level floats of the standard
    library: 53 bits of precision, exponent bound 1024, rounding to nearest
    even. *)
Module Float64.

Definition float64 : Type := spec_float.

Definition prec : Z := 53.
Definition emax : Z := 1024.

(** The conversion [float64(n)] of a Go [int]. *)
Definition of_int (n : Z) : float64 := binary_normalize prec emax n 0 false.

Definition div (a b : float64) : float64 := SFdiv prec emax a b.
Definition sub (a b : float64) : float64 := SFsub prec emax a b.

(** [math.Abs] *)
Definition Abs (a : float64) : float64 := SFabs a.

(** [a <= b] on float64: false as soon as one side is NaN. *)
Definition le (a b : float64) : bool := SFleb a b.

Definition is_nan (a : float64) : bool :=
  match a with S754_nan => true | _ => false end.

Definition is_inf (a : float64) : bool :=
  match a with S754_infinity _ => true | _ => false end.

End Float64.

Import Float64.

(* ================================================================= *)
(** ** Media types *)

Definition mediaTypeToVideoExtension (mediaType : string) : string :=
  if String.eqb mediaType "video/mp4" then "mp4"
  else if String.eqb mediaType "video/quicktime" then "mov"
  else "".

(* ================================================================= *)
(** ** almostEqual *)

(** The untyped constant [1e-3], converted to float64 where it is used:
    the double nearest to 1/1000. *)
Definition float64EqualityThreshold : float64 :=
  Eval vm_compute in div (of_int 1) (of_int 1000).

Definition almostEqual (a b : float64) : bool :=
  le (Abs (sub a b)) float64EqualityThreshold.

(** The constant expressions [16.0/9.0] and [9.0/16.0]: evaluated exactly by
    the compiler and rounded once, which is what one correctly rounded
    division of the two integers gives. *)
Definition ratio_16_9 : float64 := Eval vm_compute in div (of_int 16) (of_int 9).
Definition ratio_9_16 : float64 := Eval vm_compute in div (of_int 9) (of_int 16).

(* ================================================================= *)
(** ** getVideoAspectRatio *)

(** One entry of [ffprobeOutput.Streams]. *)
Record Stream : Type := mkStream {
  Width : Z;
  Height : Z;
  DisplayAspectRatio : string
}.

Record ffprobeOutput : Type := mkOutput {
  Streams : list Stream
}.

(** The [for _, stream := range outData.Streams] loop (lines 71-75): the
    first non-empty [DisplayAspectRatio], if the loop returns at all. *)
Fixpoint rangeStreams (streams : list Stream) : option string :=
  match streams with
  | [] => None
  | stream :: rest =>
      if negb (String.eqb (DisplayAspectRatio stream) "")
      then Some (DisplayAspectRatio stream)
      else rangeStreams rest
  end.

(** [float64(width) / float64(height)] *)
Definition aspectRatioOf (width height : Z) : float64 :=
  div (of_int width) (of_int height).

(** Lines 77-86, on [Streams[0]]. *)
Definition numericAspect (s0 : Stream) : string :=
  let width := Width s0 in
  let height := Height s0 in
  let aspectRatio := aspectRatioOf width height in
  if almostEqual aspectRatio ratio_16_9 then "16:9"
  else if almostEqual aspectRatio ratio_9_16 then "9:16"
  else "other".

(** Lines 67-86 of [getVideoAspectRatio], on the parsed report.  The match
    on the slice is the [len(outData.Streams) == 0] test and gives
    [Streams[0]] in the other branch. *)
Definition aspectOfReport (outData : ffprobeOutput) : result string :=
  match Streams outData with
  | [] => Err "no streams found"
  | s0 :: _ =>
      match rangeStreams (Streams outData) with
      | Some dar => Ok dar
      | None => Ok (numericAspect s0)
      end
  end.

(** The [switch aspectRatio] of the handler (lines 175-181). *)
Definition videoPrefixOf (aspectRatio : string) : string :=
  if String.eqb aspectRatio "16:9" then "landscape"
  else if String.eqb aspectRatio "9:16" then "portrait"
  else "other".

(* ================================================================= *)
(** ** Library functions the handler calls *)

(** [strings.Split(s, ",")]: cuts at every comma, so a string with [n]
    commas gives [n + 1] components, and the empty string gives one empty
    component. *)
Fixpoint strings_Split_comma (s : string) : list string :=
  match s with
  | EmptyString => [EmptyString]
  | String c rest =>
      if Ascii.eqb c ","%char
      then EmptyString :: strings_Split_comma rest
      else match strings_Split_comma rest with
           | hd :: tl => String c hd :: tl
           | [] => [String c EmptyString]
           end
  end.

(** [make([]byte, n)] *)
Definition make_bytes (n : nat) : list Byte.byte := repeat Byte.x00 n.

(** Writing [src] into the front of the buffer [dst], as [rand.Read] and
    [Encode] do; the buffer keeps its length. *)
Definition fill (dst src : list Byte.byte) : list Byte.byte :=
  firstn (length dst) (src ++ skipn (length src) dst).

(** [encoding/base64], the encoding [RawURLEncoding]: the URL-safe alphabet,
    no padding. *)
Module Base64.

Definition encodeURL : string :=
  "ABCDEFGHIJKLMNOPQRSTUVWXYZabcdefghijklmnopqrstuvwxyz0123456789-_".

(** [enc.encode[i]] *)
Definition encode_at (i : N) : Byte.byte :=
  nth (N.to_nat i) (list_byte_of_string encodeURL) Byte.x00.

Definition uint (b : Byte.byte) : N := Byte.to_N b.

(** [val>>k & 0x3F] *)
Definition sextet (val : N) (k : N) : N := N.land (N.shiftr val k) 63.

(** [EncodedLen] without padding. *)
Definition EncodedLen (n : nat) : nat :=
  (n / 3 * 4 + (n mod 3 * 8 + 5) / 6)%nat.

(** [Encode]: three source bytes give four characters; a remainder of
    one byte gives two characters and of two bytes three. *)
Fixpoint Encode (src : list Byte.byte) : list Byte.byte :=
  match src with
  | [] => []
  | [b0] =>
      let val := N.shiftl (uint b0) 16 in
      [encode_at (sextet val 18); encode_at (sextet val 12)]
  | [b0; b1] =>
      let val := N.lor (N.shiftl (uint b0) 16) (N.shiftl (uint b1) 8) in
      [encode_at (sextet val 18); encode_at (sextet val 12);
       encode_at (sextet val 6)]
  | b0 :: b1 :: b2 :: rest =>
      let val := N.lor (N.lor (N.shiftl (uint b0) 16) (N.shiftl (uint b1) 8))
                       (uint b2) in
      encode_at (sextet val 18) :: encode_at (sextet val 12)
      :: encode_at (sextet val 6) :: encode_at (sextet val 0)
      :: Encode rest
  end.

(** A character of the URL-safe alphabet: [A-Za-z0-9_-]. *)
Definition is_urlsafe (c : ascii) : bool :=
  let n := N_of_ascii c in
  ((65 <=? n) && (n <=? 90) || (97 <=? n) && (n <=? 122)
   || (48 <=? n) && (n <=? 57) || (n =? 45) || (n =? 95))%N.

End Base64.

(** Lines 196-203 after a successful [rand.Read]: the 32-byte buffer
    holding what the random source delivered, and its encoding written into
    a buffer of [EncodedLen] bytes. *)
Definition rawVideoID (random : list Byte.byte) : list Byte.byte :=
  fill (make_bytes 32) random.

Definition s3VideoID (raw : list Byte.byte) : list Byte.byte :=
  fill (make_bytes (Base64.EncodedLen (length raw))) (Base64.Encode raw).

(** Line 205: [fmt.Sprintf("%s/%s.%s", videoPrefix, s3VideoID, ext)]. *)
Definition s3VideoKey (videoPrefix : string) (id : list Byte.byte)
    (mediaType : string) : string :=
  videoPrefix ++ "/" ++ string_of_list_byte id ++ "."
  ++ mediaTypeToVideoExtension mediaType.

(** Line 217: [fmt.Sprintf("%s,%s", cfg.s3Bucket, s3VideoKey)]. *)
Definition videoURLOf (s3Bucket key : string) : string :=
  s3Bucket ++ "," ++ key.

(* ================================================================= *)
(** ** Records, configuration and the outside world *)

(** [uuid.UUID], sixteen bytes, as the number they spell. *)
Definition UUID : Type := N.

(** Modelled from the spec: the type [database.Video] is declared outside
    the two handler files.  The data model gives a record an identifier, an
    owning-user identifier, an optional stored-object reference and an
    optional thumbnail reference; the two references are the [*string]
    fields [VideoURL] and [ThumbnailURL] the handlers assign. *)
Record Video : Type := mkVideo {
  ID : UUID;
  UserID : UUID;
  VideoURL : option string;
  ThumbnailURL : option string
}.

Definition with_VideoURL (video : Video) (url : string) : Video :=
  {| ID := ID video; UserID := UserID video;
     VideoURL := Some url; ThumbnailURL := ThumbnailURL video |}.

(** The fields of [apiConfig] the handler reads; the database and the
    object-store client are part of the frame and of [Env]. *)
Record apiConfig : Type := mkConfig {
  jwtSecret : string;
  s3Bucket : string
}.

(** What the handler uses of [*http.Request]. *)
Record Request : Type := mkRequest {
  PathValue_videoID : string;
  Header : list (string * string);
  Body : list Byte.byte
}.

(** The multipart part returned by [r.FormFile]: its declared
    [Content-Type] header and its bytes. *)
Record FormFile : Type := mkFormFile {
  ContentType : string;
  Content : list Byte.byte
}.

(** How a run of the remuxing tool ends: its exit status, and whether it
    left a file at the output path. *)
Record FfmpegRun : Type := mkFfmpegRun {
  ffmpeg_err : option error;
  ffmpeg_wrote : bool
}.

(** The collaborators: every answer the handler takes from outside the two
    source files. *)
Record Env : Type := mkEnv {
  uuid_Parse : string -> result UUID;
  auth_GetBearerToken : list (string * string) -> result string;
  auth_ValidateJWT : string -> string -> result UUID;
  ParseMultipartForm : Request -> option error;
  r_FormFile : Request -> string -> result FormFile;
  mime_ParseMediaType : string -> result string;
  os_CreateTemp : string -> result string;
  io_Copy : string -> list Byte.byte -> option error;
  run_ffprobe : string -> result string;
  json_Unmarshal : string -> result ffprobeOutput;
  run_ffmpeg : string -> string -> FfmpegRun;
  os_Open : string -> option error;
  rand_Read : nat -> result (list Byte.byte);
  s3_PutObject : string -> string -> string -> option error;
  db_UpdateVideo_err : Video -> option error;
  s3_PresignGetObject : string -> string -> Z -> result string
}.

(** The external calls a run makes, in order. *)
Inductive Event : Type :=
| EvGetVideo (id : UUID)
| EvParseMultipartForm
| EvFormFile (name : string)
| EvCreateTemp (path : string)
| EvCopy (path : string)
| EvFfprobe (path : string)
| EvFfmpeg (input output : string)
| EvOpen (path : string)
| EvRandRead (n : nat)
| EvPutObject (bucket key contentType : string)
| EvUpdateVideo (video : Video)
| EvPresign (bucket key : string) (expires : Z)
| EvClose (what : string)
| EvRemove (path : string).

(** The calls that read or write request bytes or local files. *)
Definition isFileIO (e : Event) : bool :=
  match e with
  | EvParseMultipartForm | EvFormFile _ | EvCreateTemp _ | EvCopy _
  | EvFfprobe _ | EvFfmpeg _ _ | EvOpen _ | EvClose _ | EvRemove _ => true
  | _ => false
  end.

Definition isPutObject (e : Event) : bool :=
  match e with EvPutObject _ _ _ => true | _ => false end.

Definition isPresign (e : Event) : bool :=
  match e with EvPresign _ _ _ => true | _ => false end.

(** A call registered with [defer]. *)
Inductive Deferred : Type :=
| DeferClose (what : string)
| DeferRemove (path : string).

(** The state a running handler works on: the local filesystem (the set of
    paths that exist), the rows of the videos table, the deferred calls
    (most recent first) and the log of external calls (oldest first). *)
Record Frame : Type := mkFrame {
  files : gset string;
  videos : list Video;
  deferred : list Deferred;
  log : list Event
}.

(** Modelled from the spec: [cfg.db.GetVideo] and [cfg.db.UpdateVideo] are
    declared outside the two handler files.  The record-store contract is
    [GetVideo(id) -> VideoRecord | fails(NotFound)] and
    [UpdateVideo(record) -> fails(PersistError)]; a row is found and
    replaced by its identifier. *)
Definition lookupVideo (id : UUID) (rows : list Video) : option Video :=
  find (fun row => N.eqb (ID row) id) rows.

Definition replaceVideo (video : Video) (rows : list Video) : list Video :=
  map (fun row => if N.eqb (ID row) (ID video) then video else row) rows.

(** The response written by [respondWithError] or [respondWithJSON]. *)
Inductive Response : Type :=
| RespondError (code : Z) (msg : string) (err : option error)
| RespondJSON (code : Z) (payload : Video).

Definition StatusOK : Z := 200.
Definition StatusBadRequest : Z := 400.
Definition StatusUnauthorized : Z := 401.
Definition StatusNotFound : Z := 404.
Definition StatusInternalServerError : Z := 500.

Definition statusOf (resp : Response) : Z :=
  match resp with
  | RespondError code _ _ => code
  | RespondJSON code _ => code
  end.

(** [15*time.Minute], in nanoseconds. *)
Definition fifteenMinutes : Z := 15 * (60 * 1000000000).

(* ================================================================= *)
(** ** The handler monad: state, and return from the handler *)

(** A step either goes on with a value or has written a response and
    returned from the handler. *)
Inductive Step (A : Type) : Type :=
| Next (a : A)
| Return (resp : Response).
Arguments Next {A} a.
Arguments Return {A} resp.

Definition M (A : Type) : Type := Frame -> Step A * Frame.

Definition ret {A} (a : A) : M A := fun fr => (Next a, fr).

Definition bind {A B} (m : M A) (k : A -> M B) : M B :=
  fun fr =>
    match m fr with
    | (Next a, fr') => k a fr'
    | (Return resp, fr') => (Return resp, fr')
    end.

Notation "'let*' x ':=' m 'in' k" := (bind m (fun x => k))
  (at level 10, x pattern, m at level 100, k at level 200).

(** [respondWithError(w, code, msg, err); return] *)
Definition respondWithError {A} (code : Z) (msg : string) (err : option error)
    : M A :=
  fun fr => (Return (RespondError code msg err), fr).

(** [respondWithJSON(w, code, payload)] as the last statement. *)
Definition respondWithJSON {A} (code : Z) (payload : Video) : M A :=
  fun fr => (Return (RespondJSON code payload), fr).

(** The recurring [if err != nil { respondWithError(...); return }]. *)
Definition orRespond {A} (r : result A) (code : Z) (msg : string) : M A :=
  match r with
  | Ok a => ret a
  | Err e => respondWithError code msg (Some e)
  end.

Definition nilOrRespond (e : option error) (code : Z) (msg : string) : M unit :=
  match e with
  | None => ret tt
  | Some e => respondWithError code msg (Some e)
  end.

Definition emit (e : Event) : M unit :=
  fun fr => (Next tt, {| files := files fr; videos := videos fr;
                         deferred := deferred fr; log := log fr ++ [e] |}).

Definition defer (d : Deferred) : M unit :=
  fun fr => (Next tt, {| files := files fr; videos := videos fr;
                         deferred := d :: deferred fr; log := log fr |}).

Definition setFiles (f : gset string -> gset string) : M unit :=
  fun fr => (Next tt, {| files := f (files fr); videos := videos fr;
                         deferred := deferred fr; log := log fr |}).

Definition setVideos (f : list Video -> list Video) : M unit :=
  fun fr => (Next tt, {| files := files fr; videos := f (videos fr);
                         deferred := deferred fr; log := log fr |}).

Definition getFiles : M (gset string) := fun fr => (Next (files fr), fr).
Definition getVideos : M (list Video) := fun fr => (Next (videos fr), fr).

(** Running one deferred call. *)
Definition runDeferred (d : Deferred) (fr : Frame) : Frame :=
  match d with
  | DeferClose what =>
      {| files := files fr; videos := videos fr;
         deferred := deferred fr; log := log fr ++ [EvClose what] |}
  | DeferRemove path =>
      {| files := files fr ∖ {[ path ]}; videos := videos fr;
         deferred := deferred fr; log := log fr ++ [EvRemove path] |}
  end.

(** On return the deferred calls run, last registered first. *)
Fixpoint runDefers (ds : list Deferred) (fr : Frame) : Frame :=
  match ds with
  | [] => fr
  | d :: rest => runDefers rest (runDeferred d fr)
  end.

(* ================================================================= *)
(** ** The functions of the source file that act on the world *)

Definition db_GetVideo (id : UUID) : M (result Video) :=
  let* _ := emit (EvGetVideo id) in
  let* rows := getVideos in
  ret (match lookupVideo id rows with
       | Some video => Ok video
       | None => Err "sql: no rows in result set"
       end).

Definition db_UpdateVideo (env : Env) (video : Video) : M (option error) :=
  let* _ := emit (EvUpdateVideo video) in
  match db_UpdateVideo_err env video with
  | Some e => ret (Some e)
  | None => let* _ := setVideos (replaceVideo video) in ret None
  end.

(** [os.CreateTemp("", pattern)]: on success the new path exists. *)
Definition CreateTemp (env : Env) (pattern : string) : M (result string) :=
  let* _ := emit (EvCreateTemp pattern) in
  match os_CreateTemp env pattern with
  | Err e => ret (Err e)
  | Ok path => let* _ := setFiles (fun fs => fs ∪ {[ path ]}) in ret (Ok path)
  end.

(** [os.Open(path)]: fails when nothing is at [path], and otherwise as the
    operating system decides. *)
Definition Open (env : Env) (path : string) : M (option error) :=
  let* _ := emit (EvOpen path) in
  let* fs := getFiles in
  if bool_decide (path ∈ fs) then ret (os_Open env path)
  else ret (Some "no such file or directory").

Definition getVideoAspectRatio (env : Env) (filePath : string)
    : M (result string) :=
  let* _ := emit (EvFfprobe filePath) in
  match run_ffprobe env filePath with
  | Err e => ret (Err e)
  | Ok out =>
      match json_Unmarshal env out with
      | Err e => ret (Err e)
      | Ok outData => ret (aspectOfReport outData)
      end
  end.

Definition processVideoForFastStart (env : Env) (filePath : string)
    : M (result string) :=
  let outputFilePath := filePath ++ ".processing" in
  let* _ := emit (EvFfmpeg filePath outputFilePath) in
  let run := run_ffmpeg env filePath outputFilePath in
  let* _ := setFiles (fun fs => if ffmpeg_wrote run
                                then fs ∪ {[ outputFilePath ]} else fs) in
  match ffmpeg_err run with
  | Some e => ret (Err e)
  | None => ret (Ok outputFilePath)
  end.

Definition generatePresignedURL (env : Env) (bucket key : string)
    (expireTime : Z) : M (result string) :=
  let* _ := emit (EvPresign bucket key expireTime) in
  match s3_PresignGetObject env bucket key expireTime with
  | Err e => ret (Err e)
  | Ok url => ret (Ok url)
  end.

(** Lines 241-247 of [dbVideoToSignedVideo]: the reference is cut at its
    commas; with fewer than two components there is nothing to sign,
    otherwise the first two components are the bucket and the key. *)
Definition bucketAndKey (url : string) : option (string * string) :=
  let components := strings_Split_comma url in
  if (length components <? 2)%nat then None
  else Some (nth 0 components "", nth 1 components "").

(** The Go function returns the pair [(database.Video, error)]. *)
Definition dbVideoToSignedVideo (env : Env) (video : Video)
    : M (Video * option error) :=
  match VideoURL video with
  | None => ret (video, None)
  | Some url =>
      match bucketAndKey url with
      | None => ret (video, None)
      | Some (bucket, key) =>
          let* signed := generatePresignedURL env bucket key fifteenMinutes in
          match signed with
          | Err e => ret (video, Some e)
          | Ok signedURL => ret (with_VideoURL video signedURL, None)
          end
      end
  end.

(** The body of [handlerUploadVideo], statement by statement.  Every path
    through it ends in a response, so it never yields a value. *)
Definition uploadVideoBody (cfg : apiConfig) (env : Env) (r : Request)
    : M Empty_set :=
  let videoIDString := PathValue_videoID r in
  let* videoID := orRespond (uuid_Parse env videoIDString)
                    StatusBadRequest "Invalid ID" in
  let* token := orRespond (auth_GetBearerToken env (Header r))
                  StatusUnauthorized "Couldn't find JWT" in
  let* userID := orRespond (auth_ValidateJWT env token (jwtSecret cfg))
                   StatusUnauthorized "Couldn't validate JWT" in
  let* got := db_GetVideo videoID in
  let* dbVideo := orRespond got StatusNotFound "Error getting video" in
  if negb (N.eqb (UserID dbVideo) userID)
  then respondWithError StatusUnauthorized "User does not own video" None
  else
  let* _ := emit EvParseMultipartForm in
  let* _ := nilOrRespond (ParseMultipartForm env r)
              StatusBadRequest "Error parsing form" in
  let* _ := emit (EvFormFile "video") in
  let* formFile := orRespond (r_FormFile env r "video")
                     StatusBadRequest "Unable to parse form file" in
  let* _ := defer (DeferClose "formFile") in
  let* mediaType := orRespond (mime_ParseMediaType env (ContentType formFile))
                      StatusBadRequest "Error parsing media type" in
  if negb (String.eqb mediaType "video/mp4")
  then respondWithError StatusBadRequest "Invalid media type" None
  else
  let* created := CreateTemp env ("video-upload-*."
                                  ++ mediaTypeToVideoExtension mediaType) in
  let* tempFile := orRespond created
                     StatusInternalServerError "Error creating temp file" in
  let* _ := defer (DeferRemove tempFile) in
  let* _ := defer (DeferClose tempFile) in
  let* _ := emit (EvCopy tempFile) in
  let* _ := nilOrRespond (io_Copy env tempFile (Content formFile))
              StatusInternalServerError "Error copying file to temp" in
  let* probed := getVideoAspectRatio env tempFile in
  let* aspectRatio := orRespond probed StatusInternalServerError
                        "Error getting video aspect ratio" in
  let videoPrefix := videoPrefixOf aspectRatio in
  let* processed := processVideoForFastStart env tempFile in
  let* processedFilePath := orRespond processed StatusInternalServerError
                              "Error processing video for fast start" in
  let* _ := defer (DeferRemove processedFilePath) in
  let* opened := Open env processedFilePath in
  let* _ := nilOrRespond opened
              StatusInternalServerError "Error opening processed file" in
  let* _ := defer (DeferClose processedFilePath) in
  let* _ := emit (EvRandRead 32) in
  let* random := orRespond (rand_Read env 32) StatusInternalServerError
                   "Error generating thumbnail ID" in
  let raw := rawVideoID random in
  let id := s3VideoID raw in
  let key := s3VideoKey videoPrefix id mediaType in
  let* _ := emit (EvPutObject (s3Bucket cfg) key mediaType) in
  let* _ := nilOrRespond (s3_PutObject env (s3Bucket cfg) key mediaType)
              StatusInternalServerError "Error uploading video to S3" in
  let videoURL := videoURLOf (s3Bucket cfg) key in
  let dbVideo := with_VideoURL dbVideo videoURL in
  let* updated := db_UpdateVideo env dbVideo in
  let* _ := nilOrRespond updated
              StatusInternalServerError "Error updating video" in
  let* signed := dbVideoToSignedVideo env dbVideo in
  match signed with
  | (_, Some e) =>
      respondWithError StatusInternalServerError "Error signing video URL"
        (Some e)
  | (dbVideo, None) => respondWithJSON StatusOK dbVideo
  end.

(** What a run of the handler leaves: the response, and the frame after
    the deferred calls. *)
Record Outcome : Type := mkOutcome {
  response : Response;
  final : Frame
}.

(** One run of the handler on a filesystem and a videos table: the body,
    then the deferred calls. *)
Definition handlerUploadVideo (cfg : apiConfig) (env : Env) (r : Request)
    (fs : gset string) (rows : list Video) : Outcome :=
  let fr0 := {| files := fs; videos := rows; deferred := []; log := [] |} in
  match uploadVideoBody cfg env r fr0 with
  | (Return resp, fr) =>
      {| response := resp; final := runDefers (deferred fr) fr |}
  | (Next a, _) => match a with end
  end.

(** The classification the handler derives from a parsed report: the answer
    of [getVideoAspectRatio] (lines 67-86) through the [switch] of lines
    175-181. *)
Definition classifyReport (outData : ffprobeOutput) : result string :=
  match aspectOfReport outData with
  | Ok aspectRatio => Ok (videoPrefixOf aspectRatio)
  | Err e => Err e
  end.

(* ================================================================= *)
(** ** Predicates used to state the properties *)

(** [strings.Contains(s, ",")] *)
Fixpoint containsComma (s : string) : bool :=
  match s with
  | EmptyString => false
  | String c rest => Ascii.eqb c ","%char || containsComma rest
  end.

(** Every character is one of [A-Za-z0-9_-]. *)
Definition urlsafeString (s : string) : bool :=
  forallb Base64.is_urlsafe (list_ascii_of_string s).

(** The three storage prefixes. *)
Definition isClassificationPrefix (s : string) : Prop :=
  s = "landscape" \/ s = "portrait" \/ s = "other".

Definition noExplicitRatio (stream : Stream) : Prop :=
  DisplayAspectRatio stream = "".

Definition urlsafeBytes (l : list Byte.byte) : Prop :=
  Forall (fun b => Base64.is_urlsafe (ascii_of_byte b) = true) l.

(* ================================================================= *)
(** ** A concrete configuration, request and environment *)

Module Sample.

Definition cfg : apiConfig :=
  {| jwtSecret := "secret"; s3Bucket := "tubely-bucket" |}.

Definition owner : UUID := 1%N.
Definition stranger : UUID := 2%N.
Definition videoID : UUID := 7%N.

Definition row : Video :=
  {| ID := videoID; UserID := owner; VideoURL := None;
     ThumbnailURL := None |}.

Definition request : Request :=
  {| PathValue_videoID := "00000000-0000-0000-0000-000000000007";
     Header := [("Authorization", "Bearer owner-token")];
     Body := [] |}.

Definition landscapeReport : ffprobeOutput :=
  {| Streams := [ {| Width := 1920; Height := 1080;
                     DisplayAspectRatio := "" |} ] |}.

(** An environment in which every collaborator succeeds, with knobs for
    the answers the examples vary: who the token belongs to, the declared
    content type, how the remux ends, and the presigned URL. *)
Definition env (user : UUID) (contentType : string) (remux : FfmpegRun)
    (presigned : result string) : Env :=
  {| uuid_Parse := fun _ => Ok videoID;
     auth_GetBearerToken := fun _ => Ok "owner-token";
     auth_ValidateJWT := fun _ _ => Ok user;
     ParseMultipartForm := fun _ => None;
     r_FormFile := fun _ _ => Ok {| ContentType := contentType;
                                    Content := [] |};
     mime_ParseMediaType := fun s => Ok s;
     os_CreateTemp := fun _ => Ok "/tmp/video-upload-123.mp4";
     io_Copy := fun _ _ => None;
     run_ffprobe := fun _ => Ok "{}";
     json_Unmarshal := fun _ => Ok landscapeReport;
     run_ffmpeg := fun _ _ => remux;
     os_Open := fun _ => None;
     rand_Read := fun n => Ok (repeat Byte.xff n);
     s3_PutObject := fun _ _ _ => None;
     db_UpdateVideo_err := fun _ => None;
     s3_PresignGetObject := fun _ _ _ => presigned |}.

Definition remuxed : FfmpegRun :=
  {| ffmpeg_err := None; ffmpeg_wrote := true |}.

(** The remuxing tool exits with an error after it created its output
    file, as it does when the disk fills up while it writes. *)
Definition remuxFailedMidway : FfmpegRun :=
  {| ffmpeg_err := Some "exit status 1"; ffmpeg_wrote := true |}.

Definition happy : Env :=
  env owner "video/mp4" remuxed (Ok "https://signed.example/url").

(** The token belongs to somebody who does not own the record. *)
Definition notOwner : Env :=
  env stranger "video/mp4" remuxed (Ok "https://signed.example/url").

(** The part is declared as a QuickTime file. *)
Definition quicktime : Env :=
  env owner "video/quicktime" remuxed (Ok "https://signed.example/url").

Definition remuxFails : Env :=
  env owner "video/mp4" remuxFailedMidway (Ok "https://signed.example/url").

Definition run (e : Env) : Outcome :=
  handlerUploadVideo cfg e request ∅ [row].

Definition staged : string := "/tmp/video-upload-123.mp4".
Definition artifact : string := "/tmp/video-upload-123.mp4.processing".

(** The key of the successful run: 32 bytes 0xff encode to 42 underscores
    and an 8. *)
Definition key : string :=
  "landscape/__________________________________________8.mp4".

(** A record whose reference is a plain URL, as a record had before the
    composite references were introduced. *)
Definition legacy : Video :=
  {| ID := 9%N; UserID := owner;
     VideoURL := Some "https://cdn.example/clip.mp4";
     ThumbnailURL := None |}.

Definition emptyFrame : Frame :=
  {| files := ∅; videos := [legacy]; deferred := []; log := [] |}.

End Sample.

(* ================================================================= *)
(** ** Further predicates and scenarios *)

Definition isFfmpeg (e : Event) : bool :=
  match e with EvFfmpeg _ _ => true | _ => false end.

Definition isUpdateVideo (e : Event) : bool :=
  match e with EvUpdateVideo _ => true | _ => false end.

(** The three ways [getVideoAspectRatio] returns an error for a file: the
    probe exits with an error, its output does not parse, or the parsed
    report has no streams. *)
Definition probeFails (env : Env) (path : string) (e : error) : Prop :=
  run_ffprobe env path = Err e \/
  (exists out, run_ffprobe env path = Ok out /\ json_Unmarshal env out = Err e) \/
  (exists out outData,
     run_ffprobe env path = Ok out /\ json_Unmarshal env out = Ok outData /\
     Streams outData = [] /\ e = "no streams found").

(** The pattern the handler passes to [os.CreateTemp]. *)
Definition stagingPattern : string :=
  "video-upload-*." ++ mediaTypeToVideoExtension "video/mp4".

Module Scenario.

(** The probe reports no streams. *)
Definition noStreams : Env :=
  {| uuid_Parse := uuid_Parse Sample.happy;
     auth_GetBearerToken := auth_GetBearerToken Sample.happy;
     auth_ValidateJWT := auth_ValidateJWT Sample.happy;
     ParseMultipartForm := ParseMultipartForm Sample.happy;
     r_FormFile := r_FormFile Sample.happy;
     mime_ParseMediaType := mime_ParseMediaType Sample.happy;
     os_CreateTemp := os_CreateTemp Sample.happy;
     io_Copy := io_Copy Sample.happy;
     run_ffprobe := run_ffprobe Sample.happy;
     json_Unmarshal := fun _ => Ok {| Streams := [] |};
     run_ffmpeg := run_ffmpeg Sample.happy;
     os_Open := os_Open Sample.happy;
     rand_Read := rand_Read Sample.happy;
     s3_PutObject := s3_PutObject Sample.happy;
     db_UpdateVideo_err := db_UpdateVideo_err Sample.happy;
     s3_PresignGetObject := s3_PresignGetObject Sample.happy |}.

(** The table refuses the update. *)
Definition persistFails : Env :=
  {| uuid_Parse := uuid_Parse Sample.happy;
     auth_GetBearerToken := auth_GetBearerToken Sample.happy;
     auth_ValidateJWT := auth_ValidateJWT Sample.happy;
     ParseMultipartForm := ParseMultipartForm Sample.happy;
     r_FormFile := r_FormFile Sample.happy;
     mime_ParseMediaType := mime_ParseMediaType Sample.happy;
     os_CreateTemp := os_CreateTemp Sample.happy;
     io_Copy := io_Copy Sample.happy;
     run_ffprobe := run_ffprobe Sample.happy;
     json_Unmarshal := json_Unmarshal Sample.happy;
     run_ffmpeg := run_ffmpeg Sample.happy;
     os_Open := os_Open Sample.happy;
     rand_Read := rand_Read Sample.happy;
     s3_PutObject := s3_PutObject Sample.happy;
     db_UpdateVideo_err := fun _ => Some "database is locked";
     s3_PresignGetObject := s3_PresignGetObject Sample.happy |}.

(** The path does not carry a UUID. *)
Definition badID : Env :=
  {| uuid_Parse := fun _ => Err "invalid UUID length: 3";
     auth_GetBearerToken := auth_GetBearerToken Sample.happy;
     auth_ValidateJWT := auth_ValidateJWT Sample.happy;
     ParseMultipartForm := ParseMultipartForm Sample.happy;
     r_FormFile := r_FormFile Sample.happy;
     mime_ParseMediaType := mime_ParseMediaType Sample.happy;
     os_CreateTemp := os_CreateTemp Sample.happy;
     io_Copy := io_Copy Sample.happy;
     run_ffprobe := run_ffprobe Sample.happy;
     json_Unmarshal := json_Unmarshal Sample.happy;
     run_ffmpeg := run_ffmpeg Sample.happy;
     os_Open := os_Open Sample.happy;
     rand_Read := rand_Read Sample.happy;
     s3_PutObject := s3_PutObject Sample.happy;
     db_UpdateVideo_err := db_UpdateVideo_err Sample.happy;
     s3_PresignGetObject := s3_PresignGetObject Sample.happy |}.

(** The presign call fails. *)
Definition presignFails : Env :=
  Sample.env Sample.owner "video/mp4" Sample.remuxed
    (Err "expired credentials").

(** The stored row of the successful run. *)
Definition stored : Video :=
  with_VideoURL Sample.row (videoURLOf "tubely-bucket" Sample.key).

End Scenario.

(** The position of a character in the alphabet, for the characters that
    are in it: the inverse of the table [enc.encode]. *)
Fixpoint index_from (b : Byte.byte) (l : list Byte.byte) (i : N) : N :=
  match l with
  | [] => i
  | c :: rest => if Byte.eqb c b then i else index_from b rest (N.succ i)
  end.

Definition alphabet_index (b : Byte.byte) : N :=
  index_from b (list_byte_of_string Base64.encodeURL) 0.

(* ================================================================= *)
(** ** handler_upload_thumbnail.go *)

Definition mediaTypeToFileExtension (mediaType : string) : string :=
  if String.eqb mediaType "image/jpeg" then "jpg"
  else if String.eqb mediaType "image/png" then "png"
  else if String.eqb mediaType "image/gif" then "gif"
  else "".

(** The further fields of [apiConfig] that the thumbnail handler reads. *)
Record assetConfig : Type := mkAssetConfig {
  assetsRoot : string;
  port : string
}.

Definition with_ThumbnailURL (video : Video) (url : string) : Video :=
  {| ID := ID video; UserID := UserID video;
     VideoURL := VideoURL video; ThumbnailURL := Some url |}.

(** The external calls of the thumbnail handler. *)
Inductive ThumbEvent : Type :=
| ThGetVideo (id : UUID)
| ThParseMultipartForm
| ThFormFile (name : string)
| ThRandRead (n : nat)
| ThCreate (path : string)
| ThCopy (path : string)
| ThUpdateVideo (video : Video)
| ThClose (what : string).

Definition isThumbFileIO (e : ThumbEvent) : bool :=
  match e with
  | ThParseMultipartForm | ThFormFile _ | ThCreate _ | ThCopy _
  | ThClose _ => true
  | _ => false
  end.

(** The state the thumbnail handler works on; as [Frame], with its own
    log.  The only calls this handler defers are [Close] calls, so the
    deferred stack holds what is to be closed. *)
Record ThumbFrame : Type := mkThumbFrame {
  th_files : gset string;
  th_videos : list Video;
  th_deferred : list string;
  th_log : list ThumbEvent
}.

Definition TM (A : Type) : Type := ThumbFrame -> Step A * ThumbFrame.

Definition th_ret {A} (a : A) : TM A := fun fr => (Next a, fr).

Definition th_bind {A B} (m : TM A) (k : A -> TM B) : TM B :=
  fun fr =>
    match m fr with
    | (Next a, fr') => k a fr'
    | (Return resp, fr') => (Return resp, fr')
    end.

Notation "'let+' x ':=' m 'in' k" := (th_bind m (fun x => k))
  (at level 10, x pattern, m at level 100, k at level 200).

Definition th_respondWithError {A} (code : Z) (msg : string)
    (err : option error) : TM A :=
  fun fr => (Return (RespondError code msg err), fr).

Definition th_respondWithJSON {A} (code : Z) (payload : Video) : TM A :=
  fun fr => (Return (RespondJSON code payload), fr).

Definition th_orRespond {A} (r : result A) (code : Z) (msg : string) : TM A :=
  match r with
  | Ok a => th_ret a
  | Err e => th_respondWithError code msg (Some e)
  end.

Definition th_nilOrRespond (e : option error) (code : Z) (msg : string)
    : TM unit :=
  match e with
  | None => th_ret tt
  | Some e => th_respondWithError code msg (Some e)
  end.

Definition th_emit (e : ThumbEvent) : TM unit :=
  fun fr => (Next tt, {| th_files := th_files fr; th_videos := th_videos fr;
                         th_deferred := th_deferred fr;
                         th_log := th_log fr ++ [e] |}).

Definition th_deferClose (d : string) : TM unit :=
  fun fr => (Next tt, {| th_files := th_files fr; th_videos := th_videos fr;
                         th_deferred := d :: th_deferred fr;
                         th_log := th_log fr |}).

Definition th_setFiles (f : gset string -> gset string) : TM unit :=
  fun fr => (Next tt, {| th_files := f (th_files fr);
                         th_videos := th_videos fr;
                         th_deferred := th_deferred fr;
                         th_log := th_log fr |}).

Definition th_setVideos (f : list Video -> list Video) : TM unit :=
  fun fr => (Next tt, {| th_files := th_files fr;
                         th_videos := f (th_videos fr);
                         th_deferred := th_deferred fr;
                         th_log := th_log fr |}).

Definition th_getVideos : TM (list Video) :=
  fun fr => (Next (th_videos fr), fr).

(** On return the deferred [Close] calls run, last registered first. *)
Fixpoint th_runDefers (ds : list string) (fr : ThumbFrame) : ThumbFrame :=
  match ds with
  | [] => fr
  | what :: rest =>
      th_runDefers rest
        {| th_files := th_files fr; th_videos := th_videos fr;
           th_deferred := th_deferred fr;
           th_log := th_log fr ++ [ThClose what] |}
  end.

Definition th_GetVideo (id : UUID) : TM (result Video) :=
  let+ _ := th_emit (ThGetVideo id) in
  let+ rows := th_getVideos in
  th_ret (match lookupVideo id rows with
          | Some video => Ok video
          | None => Err "sql: no rows in result set"
          end).

Definition th_UpdateVideo (env : Env) (video : Video) : TM (option error) :=
  let+ _ := th_emit (ThUpdateVideo video) in
  match db_UpdateVideo_err env video with
  | Some e => th_ret (Some e)
  | None => let+ _ := th_setVideos (replaceVideo video) in th_ret None
  end.

(** [os.Create(path)]: on success a file exists at [path]. *)
Definition Create (os_Create : string -> option error) (path : string)
    : TM (option error) :=
  let+ _ := th_emit (ThCreate path) in
  match os_Create path with
  | Some e => th_ret (Some e)
  | None => let+ _ := th_setFiles (fun fs => fs ∪ {[ path ]}) in th_ret None
  end.

(** Lines 74-85: the identifier and the path of the asset file. *)
Definition thumbnailID (random : list Byte.byte) : list Byte.byte :=
  let rawThumbnailID := fill (make_bytes 32) random in
  fill (make_bytes (Base64.EncodedLen (length rawThumbnailID)))
       (Base64.Encode rawThumbnailID).

Definition thumbnailPath (assets : assetConfig) (random : list Byte.byte)
    (mediaType : string) : string :=
  assetsRoot assets ++ "/" ++ string_of_list_byte (thumbnailID random) ++ "."
  ++ mediaTypeToFileExtension mediaType.

(** Line 99 *)
Definition thumbnailURLOf (assets : assetConfig) (filePath : string) : string :=
  "http://localhost:" ++ port assets ++ "/" ++ filePath.

(** The body of [handlerUploadThumbnail], statement by statement. *)
Definition uploadThumbnailBody (cfg : apiConfig) (assets : assetConfig)
    (env : Env) (os_Create : string -> option error) (r : Request)
    : TM Empty_set :=
  let videoIDString := PathValue_videoID r in
  let+ videoID := th_orRespond (uuid_Parse env videoIDString)
                    StatusBadRequest "Invalid ID" in
  let+ token := th_orRespond (auth_GetBearerToken env (Header r))
                  StatusUnauthorized "Couldn't find JWT" in
  let+ userID := th_orRespond (auth_ValidateJWT env token (jwtSecret cfg))
                   StatusUnauthorized "Couldn't validate JWT" in
  let+ got := th_GetVideo videoID in
  let+ dbVideo := th_orRespond got StatusNotFound "Error getting video" in
  if negb (N.eqb (UserID dbVideo) userID)
  then th_respondWithError StatusUnauthorized "User does not own video" None
  else
  let+ _ := th_emit ThParseMultipartForm in
  let+ _ := th_nilOrRespond (ParseMultipartForm env r)
              StatusBadRequest "Error parsing form" in
  let+ _ := th_emit (ThFormFile "thumbnail") in
  let+ formFile := th_orRespond (r_FormFile env r "thumbnail")
                     StatusBadRequest "Unable to parse form file" in
  let+ _ := th_deferClose "formFile" in
  let+ _ := th_emit (ThRandRead 32) in
  let+ random := th_orRespond (rand_Read env 32) StatusInternalServerError
                   "Error generating thumbnail ID" in
  let mediaType := ContentType formFile in
  let filePath := thumbnailPath assets random mediaType in
  let+ created := Create os_Create filePath in
  let+ _ := th_nilOrRespond created
              StatusInternalServerError "Error creating file" in
  let+ _ := th_emit (ThCopy filePath) in
  let+ _ := th_nilOrRespond (io_Copy env filePath (Content formFile))
              StatusInternalServerError "Error copying file" in
  let thumbnailURL := thumbnailURLOf assets filePath in
  let dbVideo := with_ThumbnailURL dbVideo thumbnailURL in
  let+ updated := th_UpdateVideo env dbVideo in
  let+ _ := th_nilOrRespond updated
              StatusInternalServerError "Error updating video" in
  th_respondWithJSON StatusOK dbVideo.

Record ThumbOutcome : Type := mkThumbOutcome {
  th_response : Response;
  th_final : ThumbFrame
}.

Definition handlerUploadThumbnail (cfg : apiConfig) (assets : assetConfig)
    (env : Env) (os_Create : string -> option error) (r : Request)
    (fs : gset string) (rows : list Video) : ThumbOutcome :=
  let fr0 := {| th_files := fs; th_videos := rows; th_deferred := [];
                th_log := [] |} in
  match uploadThumbnailBody cfg assets env os_Create r fr0 with
  | (Return resp, fr) =>
      {| th_response := resp; th_final := th_runDefers (th_deferred fr) fr |}
  | (Next a, _) => match a with end
  end.

(** The three image types the extension table knows. *)
Definition isKnownImageType (mediaType : string) : bool :=
  String.eqb mediaType "image/jpeg" || String.eqb mediaType "image/png"
  || String.eqb mediaType "image/gif".

Module Thumb.

Definition assets : assetConfig := {| assetsRoot := "./assets"; port := "8091" |}.

(** The environment of the sample with a part declared as [contentType];
    the thumbnail handler looks up the field "thumbnail". *)
Definition env (user : UUID) (contentType : string) : Env :=
  Sample.env user contentType Sample.remuxed (Ok "unused").

Definition created : string -> option error := fun _ => None.

Definition token : string := "__________________________________________8".

Definition run (e : Env) : ThumbOutcome :=
  handlerUploadThumbnail Sample.cfg assets e created Sample.request ∅
    [Sample.row].

End Thumb.

(* ================================================================= *)
(** * Properties *)

(** ** The float64 constants *)

(** The three constants are the doubles the compiler produces: the
    threshold is within half a unit in the last place of 1/1000, the first
    target within half a unit of 16/9, and 9/16 is exact. *)
Lemma float64EqualityThreshold_nearest :
  float64EqualityThreshold = S754_finite false 4611686018427388 (-62) /\
  Z.abs (1000 * 4611686018427388 - 2 ^ 62) * 2 <= 1000.
Proof. split; [reflexivity | vm_compute; discriminate]. Qed.

Lemma ratio_16_9_nearest :
  ratio_16_9 = S754_finite false 8006399337547548 (-52) /\
  Z.abs (9 * 8006399337547548 - 16 * 2 ^ 52) * 2 <= 9.
Proof. split; [reflexivity | vm_compute; discriminate]. Qed.

Lemma ratio_9_16_exact :
  ratio_9_16 = S754_finite false 5066549580791808 (-53) /\
  16 * 5066549580791808 = 9 * 2 ^ 53.
Proof. split; reflexivity. Qed.

(** ** Inspection of a parsed report *)

Lemma rangeStreams_skip pre rest :
  Forall noExplicitRatio pre ->
  rangeStreams (pre ++ rest) = rangeStreams rest.
Proof.
  induction 1 as [|s pre Hs _ IH]; simpl; [reflexivity|].
  rewrite Hs. simpl. exact IH.
Qed.

Lemma rangeStreams_none streams :
  Forall noExplicitRatio streams -> rangeStreams streams = None.
Proof.
  intros H. rewrite <- (app_nil_r streams).
  rewrite (rangeStreams_skip _ _ H). reflexivity.
Qed.

Lemma rangeStreams_first pre st post :
  Forall noExplicitRatio pre ->
  DisplayAspectRatio st <> "" ->
  rangeStreams (pre ++ st :: post) = Some (DisplayAspectRatio st).
Proof.
  intros Hpre Hst. rewrite (rangeStreams_skip _ _ Hpre). simpl.
  destruct (String.eqb_spec (DisplayAspectRatio st) ""); [contradiction|].
  reflexivity.
Qed.

Lemma aspectOfReport_explicit pre st post :
  Forall noExplicitRatio pre ->
  DisplayAspectRatio st <> "" ->
  aspectOfReport {| Streams := pre ++ st :: post |}
  = Ok (DisplayAspectRatio st).
Proof.
  intros Hpre Hst. unfold aspectOfReport. simpl Streams.
  rewrite (rangeStreams_first _ _ _ Hpre Hst).
  destruct pre; reflexivity.
Qed.

(** C1.  When some stream of the report carries a non-empty display aspect
    ratio, the first such string in report order decides the
    classification, whatever the widths and heights of the streams are:
    "16:9" gives landscape, "9:16" gives portrait and every other non-empty
    string gives other. *)
Theorem explicit_ratio_takes_precedence (pre post : list Stream) (st : Stream) :
  Forall noExplicitRatio pre ->
  DisplayAspectRatio st <> "" ->
  let outData := {| Streams := pre ++ st :: post |} in
  aspectOfReport outData = Ok (DisplayAspectRatio st) /\
  (DisplayAspectRatio st = "16:9" -> classifyReport outData = Ok "landscape") /\
  (DisplayAspectRatio st = "9:16" -> classifyReport outData = Ok "portrait") /\
  (DisplayAspectRatio st <> "16:9" -> DisplayAspectRatio st <> "9:16" ->
   classifyReport outData = Ok "other").
Proof.
  intros Hpre Hst outData.
  pose proof (aspectOfReport_explicit pre st post Hpre Hst) as Hasp.
  fold outData in Hasp. unfold classifyReport. rewrite Hasp.
  split; [reflexivity|]. unfold videoPrefixOf.
  split; [|split].
  - intros ->. reflexivity.
  - intros ->. reflexivity.
  - intros H1 H2.
    destruct (String.eqb_spec (DisplayAspectRatio st) "16:9"); [contradiction|].
    destruct (String.eqb_spec (DisplayAspectRatio st) "9:16"); [contradiction|].
    reflexivity.
Qed.

(** The report of the specification's example: one stream, declared "9:16",
    geometry 1000x1000, which by its numbers would be other. *)
Lemma explicit_ratio_takes_precedence_witness :
  numericAspect (mkStream 1000 1000 "9:16") = "other" /\
  classifyReport {| Streams := [mkStream 1000 1000 "9:16"] |} = Ok "portrait".
Proof.
  split; [vm_compute; reflexivity|].
  refine (proj1 (proj2 (proj2 (explicit_ratio_takes_precedence []
                                 [] (mkStream 1000 1000 "9:16") _ _))) _).
  - constructor.
  - discriminate.
  - reflexivity.
Defined.



(** Geometries that are exactly 16:9, exactly 9:16 or square, for every
    scale up to 8192x4608: the float64 quotient lands on the target itself
    or far from both. *)
Lemma exact_ratios_classified (k : nat) :
  (1 <= k <= 512)%nat ->
  let n := Z.of_nat k in
  classifyReport {| Streams := [mkStream (16 * n) (9 * n) ""] |}
  = Ok "landscape" /\
  classifyReport {| Streams := [mkStream (9 * n) (16 * n) ""] |}
  = Ok "portrait" /\
  classifyReport {| Streams := [mkStream n n ""] |} = Ok "other".
Proof.
  intros Hk n.
  pose (ok := fun k : nat =>
    let n := Z.of_nat k in
    String.eqb (numericAspect (mkStream (16 * n) (9 * n) "")) "16:9"
    && String.eqb (numericAspect (mkStream (9 * n) (16 * n) "")) "9:16"
    && String.eqb (numericAspect (mkStream n n "")) "other").
  assert (Hall : forallb ok (seq 1 512) = true) by (vm_compute; reflexivity).
  rewrite forallb_forall in Hall.
  assert (Hok : ok k = true) by (apply Hall, in_seq; lia).
  unfold ok in Hok. cbv zeta in Hok. fold n in Hok.
  apply andb_prop in Hok as [Hok H3]. apply andb_prop in Hok as [H1 H2].
  apply String.eqb_eq in H1, H2, H3.
  unfold classifyReport, aspectOfReport. simpl.
  rewrite H1, H2, H3. repeat split; reflexivity.
Qed.

(** Common frame sizes, and the two sides of the edge of the tolerance:
    1366x768 is within it, 854x480 is not; 15991x9000 and 16009x9000 are
    both at distance 1/1000 from 16/9 before rounding, and the rounded
    quotients fall on different sides. *)
Example frame_sizes :
  map (fun wh => numericAspect (mkStream (fst wh) (snd wh) ""))
      [(1280, 720); (1366, 768); (854, 480); (720, 1280); (640, 480);
       (15991, 9000); (16009, 9000)]
  = ["16:9"; "16:9"; "other"; "9:16"; "other"; "16:9"; "other"].
Proof. vm_compute. reflexivity. Qed.

(** ** A height of zero *)

(** Dividing by a float64 zero gives an infinity or NaN, whatever the
    dividend. *)
Lemma div_by_zero_not_finite (x : float64) :
  is_nan (div x (of_int 0)) = true \/ is_inf (div x (of_int 0)) = true.
Proof. destruct x as [s|s| |s m e]; cbn; auto. Qed.

(** An infinity or NaN is within the threshold of no finite target. *)
Lemma almostEqual_not_finite (x : float64) (s : bool) (m : positive) (e : Z) :
  is_nan x = true \/ is_inf x = true ->
  almostEqual x (S754_finite s m e) = false.
Proof.
  intros [H|H]; destruct x as [sx|sx| |sx mx ex]; try discriminate H;
    reflexivity.
Qed.

Lemma numericAspect_zero_height (s0 : Stream) :
  Height s0 = 0 -> numericAspect s0 = "other".
Proof.
  intros H0. unfold numericAspect, aspectRatioOf. rewrite H0.
  pose proof (div_by_zero_not_finite (of_int (Width s0))) as Hq.
  unfold ratio_16_9, ratio_9_16.
  rewrite !(almostEqual_not_finite _ _ _ _ Hq). reflexivity.
Qed.

(** C3, as the code has it.  With a first stream of height zero and no
    explicit ratio anywhere the inspection does not fail: the float64
    division yields an infinity or NaN instead of trapping, that quotient
    is within the threshold of neither target, and the answer is "other",
    which the handler files under the prefix other. *)
Theorem zero_height_classifies_as_other (s0 : Stream) (rest : list Stream) :
  Height s0 = 0 ->
  Forall noExplicitRatio (s0 :: rest) ->
  let outData := {| Streams := s0 :: rest |} in
  let ratio := aspectRatioOf (Width s0) (Height s0) in
  (is_nan ratio = true \/ is_inf ratio = true) /\
  aspectOfReport outData = Ok "other" /\
  classifyReport outData = Ok "other".
Proof.
  intros H0 Hall outData ratio.
  assert (Hasp : aspectOfReport outData = Ok "other").
  { unfold aspectOfReport, outData. simpl Streams.
    rewrite (rangeStreams_none _ Hall).
    rewrite (numericAspect_zero_height _ H0). reflexivity. }
  split; [|split].
  - unfold ratio, aspectRatioOf. rewrite H0. apply div_by_zero_not_finite.
  - exact Hasp.
  - unfold classifyReport. rewrite Hasp. reflexivity.
Qed.

Lemma zero_height_classifies_as_other_witness :
  classifyReport {| Streams := [mkStream 0 0 ""; mkStream 640 480 ""] |}
  = Ok "other".
Proof.
  refine (proj2 (proj2 (zero_height_classifies_as_other (mkStream 0 0 "")
                          [mkStream 640 480 ""] _ _))).
  - reflexivity.
  - repeat constructor.
Defined.

(** C3, the claim as stated fails.  The report whose only stream is 1920
    wide and 0 high, without an explicit ratio: the inspection returns a
    classification, not an error. *)
Lemma zero_height_is_not_an_error :
  Height (mkStream 1920 0 "") = 0 /\
  rangeStreams [mkStream 1920 0 ""] = None /\
  aspectOfReport {| Streams := [mkStream 1920 0 ""] |} = Ok "other" /\
  ~ (exists e, aspectOfReport {| Streams := [mkStream 1920 0 ""] |} = Err e).
Proof.
  repeat split; try (vm_compute; reflexivity).
  intros [e He]. vm_compute in He. discriminate He.
Qed.

(** ** Splitting at commas *)

Lemma strings_Split_comma_nonempty (s : string) : strings_Split_comma s <> [].
Proof.
  induction s as [|c rest IH]; simpl; [discriminate|].
  destruct (Ascii.eqb c ","); [discriminate|].
  destruct (strings_Split_comma rest); discriminate.
Qed.

Lemma strings_Split_comma_none (s : string) :
  containsComma s = false -> strings_Split_comma s = [s].
Proof.
  induction s as [|c rest IH]; simpl; [reflexivity|].
  destruct (Ascii.eqb c ","); simpl; [discriminate|].
  intros H. rewrite (IH H). reflexivity.
Qed.

Lemma strings_Split_comma_cut (a b : string) :
  containsComma a = false ->
  strings_Split_comma (a ++ "," ++ b) = a :: strings_Split_comma b.
Proof.
  induction a as [|c rest IH]; simpl; [reflexivity|].
  destruct (Ascii.eqb c ","); simpl; [discriminate|].
  intros H. simpl in IH. rewrite (IH H). reflexivity.
Qed.

Lemma containsComma_append (a b : string) :
  containsComma (a ++ b) = containsComma a || containsComma b.
Proof.
  induction a as [|c rest IH]; simpl; [reflexivity|].
  rewrite IH. apply orb_assoc.
Qed.

Lemma bucketAndKey_none (url : string) :
  containsComma url = false -> bucketAndKey url = None.
Proof.
  intros H. unfold bucketAndKey. rewrite (strings_Split_comma_none _ H).
  reflexivity.
Qed.

Lemma bucketAndKey_videoURLOf (bucket key : string) :
  containsComma bucket = false ->
  containsComma key = false ->
  bucketAndKey (videoURLOf bucket key) = Some (bucket, key).
Proof.
  intros Hb Hk. unfold bucketAndKey, videoURLOf.
  rewrite (strings_Split_comma_cut _ _ Hb), (strings_Split_comma_none _ Hk).
  reflexivity.
Qed.

(** ** Buffers *)

Lemma length_make_bytes (n : nat) : length (make_bytes n) = n.
Proof. apply repeat_length. Qed.

Lemma length_fill (dst src : list Byte.byte) :
  length (fill dst src) = length dst.
Proof.
  unfold fill. rewrite length_firstn, length_app, length_skipn. lia.
Qed.

Lemma fill_exact (dst src : list Byte.byte) :
  length src = length dst -> fill dst src = src.
Proof.
  intros H. unfold fill. rewrite H, skipn_all, app_nil_r, <- H.
  apply firstn_all.
Qed.

Lemma length_rawVideoID (random : list Byte.byte) :
  length (rawVideoID random) = 32%nat.
Proof. unfold rawVideoID. rewrite length_fill. apply length_make_bytes. Qed.

(** ** The base64 encoding *)

Lemma sextet_lt (val k : N) : (Base64.sextet val k < 64)%N.
Proof.
  unfold Base64.sextet. change 63%N with (N.ones 6).
  rewrite N.land_ones. apply N.mod_lt. discriminate.
Qed.

Lemma encode_at_urlsafe (i : N) :
  (i < 64)%N ->
  Base64.is_urlsafe (ascii_of_byte (Base64.encode_at i)) = true.
Proof.
  intros Hi.
  assert (Hall : forallb (fun n => Base64.is_urlsafe
                            (ascii_of_byte (Base64.encode_at (N.of_nat n))))
                   (seq 0 64) = true) by (vm_compute; reflexivity).
  rewrite forallb_forall in Hall.
  rewrite <- (N2Nat.id i). apply Hall. apply in_seq. lia.
Qed.

(** Induction on a byte slice three bytes at a time, as [Encode] walks it. *)
Lemma triples_ind (P : list Byte.byte -> Prop) :
  P [] ->
  (forall b0, P [b0]) ->
  (forall b0 b1, P [b0; b1]) ->
  (forall b0 b1 b2 rest, P rest -> P (b0 :: b1 :: b2 :: rest)) ->
  forall src, P src.
Proof.
  intros H0 H1 H2 H3.
  fix IH 1.
  intros [|b0 [|b1 [|b2 rest]]];
    [apply H0 | apply H1 | apply H2 | apply H3, IH].
Qed.

Lemma Encode_urlsafe (src : list Byte.byte) : urlsafeBytes (Base64.Encode src).
Proof.
  induction src as [|b0|b0 b1|b0 b1 b2 rest IH] using triples_ind;
    unfold urlsafeBytes in *; cbn [Base64.Encode];
    repeat (constructor; [apply encode_at_urlsafe, sextet_lt|]);
    first [exact IH | constructor].
Qed.

Lemma EncodedLen_step (n : nat) :
  Base64.EncodedLen (3 + n) = (4 + Base64.EncodedLen n)%nat.
Proof.
  unfold Base64.EncodedLen.
  replace (3 + n)%nat with (n + 1 * 3)%nat by lia.
  rewrite Nat.div_add by discriminate. rewrite Nat.Div0.mod_add. lia.
Qed.

Lemma length_Encode (src : list Byte.byte) :
  length (Base64.Encode src) = Base64.EncodedLen (length src).
Proof.
  induction src as [|b0|b0 b1|b0 b1 b2 rest IH] using triples_ind;
    try reflexivity.
  cbn [Base64.Encode length]. rewrite IH.
  change (S (S (S (length rest)))) with (3 + length rest)%nat.
  rewrite EncodedLen_step. reflexivity.
Qed.

Lemma s3VideoID_Encode (raw : list Byte.byte) :
  s3VideoID raw = Base64.Encode raw.
Proof.
  unfold s3VideoID. apply fill_exact.
  rewrite length_make_bytes. apply length_Encode.
Qed.

Lemma length_string_of_list_byte (l : list Byte.byte) :
  String.length (string_of_list_byte l) = length l.
Proof.
  unfold string_of_list_byte.
  induction l as [|b l IH]; simpl; [reflexivity|].
  f_equal. exact IH.
Qed.

Lemma urlsafeString_of_bytes (l : list Byte.byte) :
  urlsafeBytes l -> urlsafeString (string_of_list_byte l) = true.
Proof.
  unfold urlsafeString, string_of_list_byte.
  rewrite list_ascii_of_string_of_list_ascii.
  induction 1 as [|b l Hb _ IH]; simpl; [reflexivity|].
  rewrite Hb. exact IH.
Qed.

Lemma urlsafe_not_comma (c : ascii) :
  Base64.is_urlsafe c = true -> Ascii.eqb c "," = false.
Proof.
  intros H. destruct (Ascii.eqb_spec c ","); [|reflexivity].
  subst c. vm_compute in H. discriminate H.
Qed.

Lemma urlsafeString_no_comma (s : string) :
  urlsafeString s = true -> containsComma s = false.
Proof.
  unfold urlsafeString. induction s as [|c rest IH]; simpl; [reflexivity|].
  intros H. apply andb_prop in H as [Hc Hrest].
  rewrite (urlsafe_not_comma _ Hc), (IH Hrest). reflexivity.
Qed.

(** The token of a key: 43 characters of the URL-safe alphabet. *)
Lemma token_shape (random : list Byte.byte) :
  let token := string_of_list_byte (s3VideoID (rawVideoID random)) in
  token = string_of_list_byte (Base64.Encode (rawVideoID random)) /\
  String.length token = 43%nat /\
  urlsafeString token = true.
Proof.
  cbv zeta. rewrite s3VideoID_Encode. split; [reflexivity|]. split.
  - rewrite length_string_of_list_byte, length_Encode, length_rawVideoID.
    reflexivity.
  - apply urlsafeString_of_bytes, Encode_urlsafe.
Qed.

Lemma mediaTypeToVideoExtension_no_comma (mediaType : string) :
  containsComma (mediaTypeToVideoExtension mediaType) = false.
Proof.
  unfold mediaTypeToVideoExtension.
  destruct (String.eqb mediaType "video/mp4"); [reflexivity|].
  destruct (String.eqb mediaType "video/quicktime"); reflexivity.
Qed.

Lemma s3VideoKey_no_comma (prefix : string) (random : list Byte.byte)
    (mediaType : string) :
  isClassificationPrefix prefix ->
  containsComma (s3VideoKey prefix (s3VideoID (rawVideoID random)) mediaType)
  = false.
Proof.
  intros Hp. unfold s3VideoKey.
  rewrite !containsComma_append.
  rewrite (urlsafeString_no_comma _ (proj2 (proj2 (token_shape random)))).
  rewrite mediaTypeToVideoExtension_no_comma.
  destruct Hp as [->|[->| ->]]; reflexivity.
Qed.


(** C6, as the code has it.  For a bucket name without a comma and a key
    made by the key generator, cutting the stored reference
    "{bucket},{key}" at its commas gives back exactly that bucket and that
    key. *)
Theorem reference_roundtrip (bucket prefix mediaType : string)
    (random : list Byte.byte) :
  containsComma bucket = false ->
  isClassificationPrefix prefix ->
  let key := s3VideoKey prefix (s3VideoID (rawVideoID random)) mediaType in
  strings_Split_comma (videoURLOf bucket key) = [bucket; key] /\
  bucketAndKey (videoURLOf bucket key) = Some (bucket, key).
Proof.
  intros Hb Hp key.
  pose proof (s3VideoKey_no_comma prefix random mediaType Hp) as Hk.
  fold key in Hk. split.
  - unfold videoURLOf.
    rewrite (strings_Split_comma_cut _ _ Hb), (strings_Split_comma_none _ Hk).
    reflexivity.
  - apply bucketAndKey_videoURLOf; assumption.
Qed.

Lemma reference_roundtrip_witness :
  s3VideoKey "landscape" (s3VideoID (rawVideoID (repeat Byte.xff 32)))
    "video/mp4" = Sample.key /\
  bucketAndKey (videoURLOf "tubely-bucket" Sample.key)
  = Some ("tubely-bucket", Sample.key).
Proof.
  split; [vm_compute; reflexivity|].
  refine (proj2 (reference_roundtrip "tubely-bucket" "landscape" "video/mp4"
                   (repeat Byte.xff 32) _ _)).
  - reflexivity.
  - left. reflexivity.
Defined.

(** C6, the claim as stated fails.  With a comma in the bucket name the
    reference is cut inside the bucket name, and neither the bucket nor the
    key comes back. *)
Lemma reference_roundtrip_fails_on_comma :
  s3VideoKey "landscape" (s3VideoID (rawVideoID (repeat Byte.xff 32)))
    "video/mp4" = Sample.key /\
  videoURLOf "my,bucket" Sample.key
  = "my,bucket,landscape/__________________________________________8.mp4" /\
  bucketAndKey (videoURLOf "my,bucket" Sample.key) = Some ("my", "bucket") /\
  bucketAndKey (videoURLOf "my,bucket" Sample.key)
  <> Some ("my,bucket", Sample.key).
Proof.
  repeat split; try (vm_compute; reflexivity).
  intros H. vm_compute in H. discriminate H.
Qed.

(** ** Running the handler *)

Ltac run_unfold :=
  unfold handlerUploadVideo, uploadVideoBody, db_GetVideo, db_UpdateVideo,
    CreateTemp, Open, getVideoAspectRatio, processVideoForFastStart,
    dbVideoToSignedVideo, generatePresignedURL.

Ltac run_simpl :=
  cbv beta iota zeta delta
    [bind ret emit defer setFiles setVideos getFiles getVideos orRespond
     nilOrRespond respondWithError respondWithJSON runDefers runDeferred
     files videos deferred log final response ffmpeg_err ffmpeg_wrote
     negb] in *.

(** One step of a run: a case distinction on the answer the handler is
    waiting for.  The clauses are in program order, so the first that
    applies is the pending one. *)
Ltac run_step :=
  lazymatch goal with
  | |- context [uuid_Parse ?e ?s] => destruct (uuid_Parse e s) eqn:?
  | |- context [auth_GetBearerToken ?e ?h] =>
      destruct (auth_GetBearerToken e h) eqn:?
  | |- context [auth_ValidateJWT ?e ?t ?s] =>
      destruct (auth_ValidateJWT e t s) eqn:?
  | |- context [lookupVideo ?i ?rows] => destruct (lookupVideo i rows) eqn:?
  | |- context [N.eqb (UserID ?v) ?u] => destruct (N.eqb_spec (UserID v) u)
  | |- context [ParseMultipartForm ?e ?r] =>
      destruct (ParseMultipartForm e r) eqn:?
  | |- context [r_FormFile ?e ?r ?n] => destruct (r_FormFile e r n) eqn:?
  | |- context [mime_ParseMediaType ?e ?s] =>
      destruct (mime_ParseMediaType e s) eqn:?
  | |- context [String.eqb ?m "video/mp4"] =>
      destruct (String.eqb_spec m "video/mp4"); [subst m|]
  | |- context [os_CreateTemp ?e ?p] => destruct (os_CreateTemp e p) eqn:?
  | |- context [io_Copy ?e ?p ?c] => destruct (io_Copy e p c) eqn:?
  | |- context [run_ffprobe ?e ?p] => destruct (run_ffprobe e p) eqn:?
  | |- context [json_Unmarshal ?e ?s] => destruct (json_Unmarshal e s) eqn:?
  | |- context [match aspectOfReport ?o with _ => _ end] =>
      destruct (aspectOfReport o) eqn:?
  | |- context [run_ffmpeg ?e ?i ?o] =>
      let er := fresh "remuxErr" in
      let wr := fresh "remuxWrote" in
      destruct (run_ffmpeg e i o) as [er wr] eqn:?; destruct er, wr
  | |- context [bool_decide (?p ∈ ?s)] => destruct (bool_decide (p ∈ s)) eqn:?
  | |- context [os_Open ?e ?p] => destruct (os_Open e p) eqn:?
  | |- context [rand_Read ?e ?n] => destruct (rand_Read e n) eqn:?
  | |- context [s3_PutObject ?e ?b ?k ?c] =>
      destruct (s3_PutObject e b k c) eqn:?
  | |- context [db_UpdateVideo_err ?e ?v] =>
      destruct (db_UpdateVideo_err e v) eqn:?
  | |- context [VideoURL (with_VideoURL ?v ?u)] =>
      change (VideoURL (with_VideoURL v u)) with (Some u)
  | |- context [match bucketAndKey ?u with _ => _ end] =>
      destruct (bucketAndKey u) as [[? ?]|] eqn:?
  | |- context [s3_PresignGetObject ?e ?b ?k ?t] =>
      destruct (s3_PresignGetObject e b k t) eqn:?
  end; simplify_eq; run_simpl.

Ltac run_all := run_unfold; run_simpl; repeat run_step.

(** All the runs of the handler: the goal is split into one case for each
    way a run can end, with the outcome [out] of that run spelled out. *)
Ltac run_cases out :=
  let Hout := fresh "Hout" in
  remember (handlerUploadVideo _ _ _ _ _) as out eqn:Hout;
  symmetry in Hout; revert Hout;
  run_all; intros Hout; subst out; run_simpl.



(** Membership of an event in the log of a finished run. *)
Ltac in_log H :=
  simpl in H;
  repeat match type of H with
         | _ \/ _ => destruct H as [H|H]
         end;
  try contradiction; simplify_eq.

(** Membership in a set of paths built with union, difference and
    singletons. *)
Ltac files_solver :=
  rewrite ?elem_of_difference, ?elem_of_union, ?elem_of_singleton,
    ?elem_of_empty;
  intuition congruence.

Ltac log_mem := simpl; repeat first [left; reflexivity | right].

Lemma lookupVideo_ID (id : UUID) (rows : list Video) (video : Video) :
  lookupVideo id rows = Some video -> ID video = id.
Proof.
  unfold lookupVideo. intros H. apply find_some in H as [_ H].
  apply N.eqb_eq in H. exact H.
Qed.

Lemma lookupVideo_replaceVideo (rows : list Video) (old new : Video) :
  lookupVideo (ID new) rows = Some old ->
  lookupVideo (ID new) (replaceVideo new rows) = Some new.
Proof.
  unfold lookupVideo, replaceVideo.
  induction rows as [|row rows IH]; simpl; [discriminate|].
  destruct (N.eqb_spec (ID row) (ID new)) as [Heq|Hne]; simpl.
  - rewrite N.eqb_refl. reflexivity.
  - intros H. destruct (N.eqb_spec (ID row) (ID new)); [contradiction|].
    apply IH, H.
Qed.

Lemma containsComma_videoURLOf (bucket key : string) :
  containsComma (videoURLOf bucket key) = true.
Proof.
  unfold videoURLOf. rewrite containsComma_append. simpl.
  apply orb_true_r.
Qed.

Lemma bucketAndKey_some (url : string) :
  containsComma url = true -> bucketAndKey url <> None.
Proof.
  unfold bucketAndKey. intros H.
  assert (Hlen : (2 <= length (strings_Split_comma url))%nat).
  { induction url as [|c rest IH]; simpl in *; [discriminate|].
    destruct (Ascii.eqb c ","); simpl in *.
    - pose proof (strings_Split_comma_nonempty rest).
      destruct (strings_Split_comma rest); [contradiction|simpl; lia].
    - specialize (IH H).
      destruct (strings_Split_comma rest); simpl in *; lia. }
  destruct (Nat.ltb_spec (length (strings_Split_comma url)) 2); [lia|].
  discriminate.
Qed.

(** C10.  A record without a stored-object reference, or whose reference
    has no comma in it, comes back from the signing conversion as it went
    in, with no error; the frame is untouched, so no presign call was
    made. *)
Theorem unsigned_reference_passes_through (env : Env) (video : Video)
    (fr : Frame) :
  VideoURL video = None \/
  (exists url, VideoURL video = Some url /\ containsComma url = false) ->
  dbVideoToSignedVideo env video fr = (Next (video, None), fr) /\
  log (snd (dbVideoToSignedVideo env video fr)) = log fr /\
  (forall url, VideoURL video = Some url -> containsComma url = false ->
   (length (strings_Split_comma url) < 2)%nat).
Proof.
  intros H.
  assert (Hrun : dbVideoToSignedVideo env video fr = (Next (video, None), fr)).
  { unfold dbVideoToSignedVideo.
    destruct H as [-> | (url & -> & Hc)]; [reflexivity|].
    rewrite (bucketAndKey_none _ Hc). reflexivity. }
  split; [exact Hrun|]. split; [rewrite Hrun; reflexivity|].
  intros url _ Hc. rewrite (strings_Split_comma_none _ Hc). simpl. lia.
Qed.

Lemma unsigned_reference_passes_through_witness :
  containsComma "https://cdn.example/clip.mp4" = false /\
  dbVideoToSignedVideo Sample.happy Sample.legacy Sample.emptyFrame
  = (Next (Sample.legacy, None), Sample.emptyFrame).
Proof.
  split; [reflexivity|].
  refine (proj1 (unsigned_reference_passes_through Sample.happy Sample.legacy
                   Sample.emptyFrame _)).
  right. exists "https://cdn.example/clip.mp4". split; reflexivity.
Defined.

(** The signing conversion never writes to the videos table or to the
    filesystem. *)
Lemma dbVideoToSignedVideo_frame (env : Env) (video : Video) (fr : Frame) :
  videos (snd (dbVideoToSignedVideo env video fr)) = videos fr /\
  files (snd (dbVideoToSignedVideo env video fr)) = files fr.
Proof.
  unfold dbVideoToSignedVideo, generatePresignedURL.
  destruct (VideoURL video) as [url|]; [|split; reflexivity].
  destruct (bucketAndKey url) as [[bucket key]|]; [|split; reflexivity].
  run_simpl.
  destruct (s3_PresignGetObject env bucket key fifteenMinutes);
    split; reflexivity.
Qed.

(** C7.  When the token's user is not the owner of the record, the handler
    answers 401 "User does not own video"; the only external call it has
    made is the lookup of the record, so the form has not been parsed, no
    file has been created, and the filesystem and the table are as they
    were. *)
Theorem not_owner_rejected_before_file_io (cfg : apiConfig) (env : Env)
    (r : Request) (fs : gset string) (rows : list Video)
    (videoID userID : UUID) (token : string) (dbVideo : Video) :
  uuid_Parse env (PathValue_videoID r) = Ok videoID ->
  auth_GetBearerToken env (Header r) = Ok token ->
  auth_ValidateJWT env token (jwtSecret cfg) = Ok userID ->
  lookupVideo videoID rows = Some dbVideo ->
  UserID dbVideo <> userID ->
  let out := handlerUploadVideo cfg env r fs rows in
  response out
  = RespondError StatusUnauthorized "User does not own video" None /\
  log (final out) = [EvGetVideo videoID] /\
  forallb (fun e => negb (isFileIO e)) (log (final out)) = true /\
  files (final out) = fs /\
  videos (final out) = rows.
Proof.
  intros H1 H2 H3 H4 H5 out. subst out.
  run_unfold. rewrite H1, H2. run_simpl. rewrite H3. run_simpl.
  rewrite H4. run_simpl.
  destruct (N.eqb_spec (UserID dbVideo) userID); [contradiction|].
  run_simpl. repeat split; reflexivity.
Qed.

Lemma not_owner_rejected_before_file_io_witness :
  response (Sample.run Sample.notOwner)
  = RespondError 401 "User does not own video" None /\
  log (final (Sample.run Sample.notOwner)) = [EvGetVideo 7%N].
Proof.
  destruct (not_owner_rejected_before_file_io Sample.cfg Sample.notOwner
              Sample.request ∅ [Sample.row] Sample.videoID Sample.stranger
              "owner-token" Sample.row)
    as (Hresp & Hlog & _); try reflexivity.
  - discriminate.
  - split; [exact Hresp | exact Hlog].
Defined.

(** C4.  When the media type declared for the uploaded part is not exactly
    video/mp4, no run of the handler reaches the object store and every run
    ends in an error response; a run that got as far as the part (valid
    identifier, valid token, record found and owned, form parsed) answers
    400. *)
Theorem unsupported_media_type_rejected (cfg : apiConfig) (env : Env)
    (r : Request) (fs : gset string) (rows : list Video) (part : FormFile) :
  r_FormFile env r "video" = Ok part ->
  mime_ParseMediaType env (ContentType part) <> Ok "video/mp4" ->
  let out := handlerUploadVideo cfg env r fs rows in
  forallb (fun e => negb (isPutObject e)) (log (final out)) = true /\
  (exists code msg err, response out = RespondError code msg err) /\
  (forall videoID token dbVideo,
     uuid_Parse env (PathValue_videoID r) = Ok videoID ->
     auth_GetBearerToken env (Header r) = Ok token ->
     auth_ValidateJWT env token (jwtSecret cfg) = Ok (UserID dbVideo) ->
     lookupVideo videoID rows = Some dbVideo ->
     ParseMultipartForm env r = None ->
     statusOf (response out) = StatusBadRequest /\
     videos (final out) = rows /\
     log (final out) = [EvGetVideo videoID; EvParseMultipartForm;
                        EvFormFile "video"; EvClose "formFile"]).
Proof.
  intros Hpart Hmedia out. subst out. split; [|split].
  - run_cases out; reflexivity.
  - run_cases out; eauto.
  - intros videoID token dbVideo H1 H2 H3 H4 H5.
    run_unfold. rewrite H1, H2. run_simpl. rewrite H3. run_simpl.
    rewrite H4. run_simpl. rewrite N.eqb_refl, H5, Hpart. run_simpl.
    destruct (mime_ParseMediaType env (ContentType part)) as [mediaType|e];
      run_simpl.
    + destruct (String.eqb_spec mediaType "video/mp4"); [congruence|].
      run_simpl. repeat split; reflexivity.
    + repeat split; reflexivity.
Qed.

Lemma unsupported_media_type_rejected_witness :
  statusOf (response (Sample.run Sample.quicktime)) = 400 /\
  forallb (fun e => negb (isPutObject e))
    (log (final (Sample.run Sample.quicktime))) = true.
Proof.
  destruct (unsupported_media_type_rejected Sample.cfg Sample.quicktime
              Sample.request ∅ [Sample.row]
              {| ContentType := "video/quicktime"; Content := [] |})
    as (Hput & _ & Hstatus); try reflexivity.
  - discriminate.
  - split; [|exact Hput].
    refine (proj1 (Hstatus Sample.videoID "owner-token" Sample.row _ _ _ _ _));
      reflexivity.
Defined.

(** C5.  When the handler answers 200, the row it wrote to the videos table
    carries the composite reference "{bucket},{key}" of the object it has
    just put, and the table is still in that state when the handler
    returns; the signed URL appears only in the payload of the response,
    which is the written row with its reference replaced by what the
    presign call returned. *)
Theorem record_keeps_composite_reference (cfg : apiConfig) (env : Env)
    (r : Request) (fs : gset string) (rows : list Video) (payload : Video) :
  let out := handlerUploadVideo cfg env r fs rows in
  response out = RespondJSON StatusOK payload ->
  exists (dbVideo : Video) (key signedURL bucket' key' : string),
    let stored := with_VideoURL dbVideo (videoURLOf (s3Bucket cfg) key) in
    lookupVideo (ID dbVideo) rows = Some dbVideo /\
    In (EvPutObject (s3Bucket cfg) key "video/mp4") (log (final out)) /\
    In (EvUpdateVideo stored) (log (final out)) /\
    videos (final out) = replaceVideo stored rows /\
    lookupVideo (ID dbVideo) (videos (final out)) = Some stored /\
    VideoURL stored = Some (s3Bucket cfg ++ "," ++ key) /\
    bucketAndKey (videoURLOf (s3Bucket cfg) key) = Some (bucket', key') /\
    s3_PresignGetObject env bucket' key' fifteenMinutes = Ok signedURL /\
    payload = with_VideoURL stored signedURL.
Proof.
  intros out Hresp. subst out. revert Hresp.
  run_cases out; intros Hresp; try discriminate Hresp.
  all: try (exfalso;
            match goal with
            | H : bucketAndKey (videoURLOf ?b ?k) = None |- _ =>
                exact (bucketAndKey_some _ (containsComma_videoURLOf b k) H)
            end).
  all: injection Hresp as <-.
  all: match goal with
       | H : lookupVideo ?id _ = Some ?v |- _ =>
           pose proof (lookupVideo_ID _ _ _ H) as Hid; exists v
       end.
  all: match goal with
       | H : bucketAndKey (videoURLOf _ ?k) = Some (?b', ?k'),
         H' : s3_PresignGetObject _ _ _ _ = Ok ?u |- _ =>
           exists k, u, b', k'
       end.
  all: cbv zeta; subst.
  all: repeat split; try assumption; try reflexivity.
  all: try log_mem.
  all: match goal with
       | |- lookupVideo (ID ?v) (replaceVideo ?new ?rs) = _ =>
           exact (lookupVideo_replaceVideo rs v new ltac:(assumption))
       end.
Qed.

Lemma record_keeps_composite_reference_witness :
  response (Sample.run Sample.happy)
  = RespondJSON 200
      (with_VideoURL Sample.row "https://signed.example/url") /\
  exists (dbVideo : Video) (key : string),
    lookupVideo (ID dbVideo) (videos (final (Sample.run Sample.happy)))
    = Some (with_VideoURL dbVideo (videoURLOf "tubely-bucket" key)).
Proof.
  unfold Sample.run.
  assert (Hresp : response (handlerUploadVideo Sample.cfg Sample.happy
                              Sample.request ∅ [Sample.row])
                  = RespondJSON StatusOK
                      (with_VideoURL Sample.row "https://signed.example/url"))
    by (vm_compute; reflexivity).
  split; [exact Hresp|].
  destruct (record_keeps_composite_reference Sample.cfg Sample.happy
              Sample.request ∅ [Sample.row] _ Hresp)
    as (dbVideo & key & _ & _ & _ & _ & _ & _ & _ & Hlook & _).
  exists dbVideo, key. exact Hlook.
Defined.



(** ** Cleanup of the local files *)

Lemma length_append (a b : string) :
  String.length (a ++ b) = (String.length a + String.length b)%nat.
Proof. induction a as [|c a IH]; simpl; [reflexivity|]. rewrite IH. reflexivity. Qed.

Lemma processing_path_differs (path : string) : path ++ ".processing" <> path.
Proof.
  intros H. apply (f_equal String.length) in H.
  rewrite length_append in H. simpl in H. lia.
Qed.

(** Once the upload has a staged file, no run leaves that file behind. *)
Lemma staged_file_removed (cfg : apiConfig) (env : Env) (r : Request)
    (fs : gset string) (rows : list Video) (tempFile : string) :
  let out := handlerUploadVideo cfg env r fs rows in
  In (EvCopy tempFile) (log (final out)) ->
  tempFile ∉ files (final out).
Proof.
  intros out Hin. subst out. revert Hin.
  run_cases out; intros Hin; in_log Hin; files_solver.
Qed.

(** When the remux succeeds, no run leaves its output behind, however the
    later steps end. *)
Lemma remuxed_file_removed (cfg : apiConfig) (env : Env) (r : Request)
    (fs : gset string) (rows : list Video) (input output : string) :
  let out := handlerUploadVideo cfg env r fs rows in
  In (EvFfmpeg input output) (log (final out)) ->
  ffmpeg_err (run_ffmpeg env input output) = None ->
  output ∉ files (final out).
Proof.
  intros out Hin Herr. subst out. revert Hin.
  run_cases out; intros Hin; in_log Hin;
    try match goal with
        | H : run_ffmpeg _ _ _ = _ |- _ => rewrite H in Herr; discriminate Herr
        end;
    files_solver.
Qed.

(** When the remux fails after it has written its output, the handler
    answers 500 and returns with the output still on the filesystem: the
    only removal deferred at that point is that of the staged file. *)
Lemma failed_remux_output_stays (cfg : apiConfig) (env : Env) (r : Request)
    (fs : gset string) (rows : list Video) (input output : string)
    (e : error) :
  let out := handlerUploadVideo cfg env r fs rows in
  In (EvFfmpeg input output) (log (final out)) ->
  run_ffmpeg env input output
  = {| ffmpeg_err := Some e; ffmpeg_wrote := true |} ->
  response out
  = RespondError StatusInternalServerError
      "Error processing video for fast start" (Some e) /\
  output = input ++ ".processing" /\
  (~ In (EvRemove output) (log (final out))) /\
  (input ∉ files (final out)) /\
  output ∈ files (final out).
Proof.
  intros out Hin Hrun. subst out. revert Hin.
  run_cases out; intros Hin; in_log Hin;
    match goal with
    | H : run_ffmpeg _ _ _ = _ |- _ => rewrite H in Hrun; simplify_eq
    end.
  split; [reflexivity|]. split; [reflexivity|].
  match goal with
  | |- context [EvCopy ?p] => pose proof (processing_path_differs p) as Hne
  end.
  split; [|split].
  - simpl. intros H.
    repeat match type of H with
           | _ \/ _ => destruct H as [H|H]
           end; simplify_eq.
  - files_solver.
  - files_solver.
Qed.

(** C9, at a failing run.  The owner uploads a valid MP4 and the remuxing
    tool exits with an error after it has created its output file.  The
    handler answers 500; the staged file is gone, but the output of the
    remux, which did not exist before the request, is still on the
    filesystem when the handler has returned. *)
Theorem failed_remux_leaks_artifact :
  (Sample.artifact ∉ (∅ : gset string)) /\
  response (Sample.run Sample.remuxFails)
  = RespondError StatusInternalServerError
      "Error processing video for fast start" (Some "exit status 1") /\
  In (EvFfmpeg Sample.staged Sample.artifact)
    (log (final (Sample.run Sample.remuxFails))) /\
  (~ In (EvRemove Sample.artifact)
       (log (final (Sample.run Sample.remuxFails)))) /\
  (Sample.staged ∉ files (final (Sample.run Sample.remuxFails))) /\
  Sample.artifact ∈ files (final (Sample.run Sample.remuxFails)).
Proof.
  split; [files_solver|].
  split; [vm_compute; reflexivity|].
  split; [vm_compute; do 6 right; left; reflexivity|].
  split; [|split].
  - intros H. vm_compute in H.
    repeat match type of H with
           | _ \/ _ => destruct H as [H|H]
           end; try contradiction; discriminate H.
  - apply (bool_decide_eq_false_1
             (Sample.staged ∈ files (final (Sample.run Sample.remuxFails)))).
    vm_compute. reflexivity.
  - apply (bool_decide_eq_true_1
             (Sample.artifact ∈ files (final (Sample.run Sample.remuxFails)))).
    vm_compute. reflexivity.
Qed.

(* ================================================================= *)
(** * Further properties of the video handler *)

(** ** Requests that are turned away early *)

(** A request whose identifier, bearer token or JWT is not accepted is
    answered 400 or 401 without a single external call: the handler has
    not looked at the table, the request body or the filesystem.
    Conversely a run that made any call had all three accepted. *)
Theorem no_call_before_authentication (cfg : apiConfig) (env : Env)
    (r : Request) (fs : gset string) (rows : list Video) :
  let out := handlerUploadVideo cfg env r fs rows in
  let untouched :=
    log (final out) = [] /\ files (final out) = fs
    /\ videos (final out) = rows in
  (forall e, uuid_Parse env (PathValue_videoID r) = Err e ->
     response out = RespondError StatusBadRequest "Invalid ID" (Some e)
     /\ untouched) /\
  (forall id e, uuid_Parse env (PathValue_videoID r) = Ok id ->
     auth_GetBearerToken env (Header r) = Err e ->
     response out
     = RespondError StatusUnauthorized "Couldn't find JWT" (Some e)
     /\ untouched) /\
  (forall id token e, uuid_Parse env (PathValue_videoID r) = Ok id ->
     auth_GetBearerToken env (Header r) = Ok token ->
     auth_ValidateJWT env token (jwtSecret cfg) = Err e ->
     response out
     = RespondError StatusUnauthorized "Couldn't validate JWT" (Some e)
     /\ untouched) /\
  (forall ev, In ev (log (final out)) ->
     exists id token user,
       uuid_Parse env (PathValue_videoID r) = Ok id /\
       auth_GetBearerToken env (Header r) = Ok token /\
       auth_ValidateJWT env token (jwtSecret cfg) = Ok user /\
       hd_error (log (final out)) = Some (EvGetVideo id)).
Proof.
  intros out untouched. subst untouched out.
  split; [|split; [|split]].
  - intros e H. run_unfold. rewrite H. run_simpl. repeat split; reflexivity.
  - intros id e H1 H2. run_unfold. rewrite H1, H2. run_simpl.
    repeat split; reflexivity.
  - intros id token e H1 H2 H3. run_unfold. rewrite H1, H2. run_simpl.
    rewrite H3. run_simpl. repeat split; reflexivity.
  - intros ev. run_cases out; intros Hin; try contradiction; eauto 10.
Qed.

Lemma no_call_before_authentication_witness :
  response (Sample.run Scenario.badID)
  = RespondError 400 "Invalid ID" (Some "invalid UUID length: 3") /\
  log (final (Sample.run Scenario.badID)) = [].
Proof.
  unfold Sample.run.
  destruct (proj1 (no_call_before_authentication Sample.cfg Scenario.badID
                     Sample.request ∅ [Sample.row])
              "invalid UUID length: 3" eq_refl)
    as (Hresp & Hlog & _).
  split; [exact Hresp | exact Hlog].
Defined.

(** When no record has the identifier of the path, the answer is 404; the
    lookup is the only call made. *)
Theorem missing_record_is_not_found (cfg : apiConfig) (env : Env)
    (r : Request) (fs : gset string) (rows : list Video)
    (videoID userID : UUID) (token : string) :
  uuid_Parse env (PathValue_videoID r) = Ok videoID ->
  auth_GetBearerToken env (Header r) = Ok token ->
  auth_ValidateJWT env token (jwtSecret cfg) = Ok userID ->
  Forall (fun row => ID row <> videoID) rows ->
  let out := handlerUploadVideo cfg env r fs rows in
  (exists e, response out
             = RespondError StatusNotFound "Error getting video" (Some e)) /\
  log (final out) = [EvGetVideo videoID] /\
  files (final out) = fs /\
  videos (final out) = rows.
Proof.
  intros H1 H2 H3 Hnone out. subst out.
  assert (Hlook : lookupVideo videoID rows = None).
  { unfold lookupVideo. induction Hnone as [|row rows' Hrow _ IH]; simpl;
      [reflexivity|].
    destruct (N.eqb_spec (ID row) videoID); [contradiction | exact IH]. }
  run_unfold. rewrite H1, H2. run_simpl. rewrite H3. run_simpl.
  rewrite Hlook. run_simpl. repeat split; eauto.
Qed.

Lemma missing_record_is_not_found_witness :
  statusOf (response (handlerUploadVideo Sample.cfg Sample.happy
                        Sample.request ∅ [Sample.legacy])) = 404.
Proof.
  destruct (missing_record_is_not_found Sample.cfg Sample.happy
              Sample.request ∅ [Sample.legacy] Sample.videoID Sample.owner
              "owner-token") as ((e & Hresp) & _);
    [reflexivity | reflexivity | reflexivity
    | repeat constructor; discriminate
    | rewrite Hresp; reflexivity].
Defined.

(** ** Failures in the middle of the pipeline *)

(** When the inspection of the staged file fails, in any of its three
    ways, the handler answers 500 with that error; the remux has not been
    run, nothing has been uploaded or written to the table, and the staged
    file is gone. *)
Theorem probe_failure_stops_the_pipeline (cfg : apiConfig) (env : Env)
    (r : Request) (fs : gset string) (rows : list Video) (path : string)
    (e : error) :
  let out := handlerUploadVideo cfg env r fs rows in
  In (EvFfprobe path) (log (final out)) ->
  probeFails env path e ->
  response out
  = RespondError StatusInternalServerError
      "Error getting video aspect ratio" (Some e) /\
  forallb (fun ev => negb (isFfmpeg ev || isPutObject ev || isUpdateVideo ev))
    (log (final out)) = true /\
  (path ∉ files (final out)) /\
  videos (final out) = rows.
Proof.
  intros out Hin Hfail. subst out. revert Hin.
  run_cases out; intros Hin; in_log Hin.
  all: destruct Hfail as [H|[(o & H1 & H2)|(o & d & H1 & H2 & H3 & ->)]].
  all: try congruence.
  all: try match goal with
           | Ha : aspectOfReport ?x = _, Hs : Streams ?y = [] |- _ =>
               assert (x = y) as -> by congruence;
               unfold aspectOfReport in Ha; rewrite Hs in Ha; simplify_eq
           end.
  all: repeat split; try reflexivity; try congruence; files_solver.
Qed.

Lemma probe_failure_stops_the_pipeline_witness :
  response (Sample.run Scenario.noStreams)
  = RespondError 500 "Error getting video aspect ratio"
      (Some "no streams found").
Proof.
  unfold Sample.run.
  refine (proj1 (probe_failure_stops_the_pipeline Sample.cfg Scenario.noStreams
                   Sample.request ∅ [Sample.row] Sample.staged
                   "no streams found" _ _)).
  - vm_compute. do 5 right. left. reflexivity.
  - right. right. exists "{}", {| Streams := [] |}. repeat split.
Defined.

(** Nothing is uploaded unless the staged copy, the inspection and the
    remux all succeeded and the remuxed file could be opened. *)
Theorem upload_only_after_remux (cfg : apiConfig) (env : Env) (r : Request)
    (fs : gset string) (rows : list Video) (bucket key contentType : string) :
  let out := handlerUploadVideo cfg env r fs rows in
  In (EvPutObject bucket key contentType) (log (final out)) ->
  exists (staged : string) (part : FormFile) (stdout aspectRatio : string)
         (outData : ffprobeOutput),
    r_FormFile env r "video" = Ok part /\
    io_Copy env staged (Content part) = None /\
    run_ffprobe env staged = Ok stdout /\
    json_Unmarshal env stdout = Ok outData /\
    aspectOfReport outData = Ok aspectRatio /\
    ffmpeg_err (run_ffmpeg env staged (staged ++ ".processing")) = None /\
    os_Open env (staged ++ ".processing") = None /\
    In (EvFfmpeg staged (staged ++ ".processing")) (log (final out)).
Proof.
  intros out Hin. subst out. revert Hin.
  run_cases out; intros Hin; in_log Hin.
  all: match goal with
       | Hc : io_Copy _ ?t (Content ?p) = None,
         Hp : run_ffprobe _ ?t = Ok ?o,
         Hj : json_Unmarshal _ ?o = Ok ?d,
         Ha : aspectOfReport ?d = Ok ?a,
         Hf : run_ffmpeg _ ?t _ = _ |- _ =>
           exists t, p, o, a, d; rewrite Hf
       end.
  all: repeat split; try assumption; try reflexivity; log_mem.
Qed.

Lemma upload_only_after_remux_witness :
  exists staged : string,
    ffmpeg_err (run_ffmpeg Sample.happy staged (staged ++ ".processing"))
    = None /\
    In (EvFfmpeg staged (staged ++ ".processing"))
      (log (final (Sample.run Sample.happy))).
Proof.
  unfold Sample.run.
  assert (Hin : In (EvPutObject "tubely-bucket" Sample.key "video/mp4")
                  (log (final (handlerUploadVideo Sample.cfg Sample.happy
                                 Sample.request ∅ [Sample.row])))).
  { vm_compute. do 9 right. left. reflexivity. }
  destruct (upload_only_after_remux Sample.cfg Sample.happy Sample.request ∅
              [Sample.row] "tubely-bucket" Sample.key "video/mp4" Hin)
    as (staged & part & stdout & aspect & outData & _ & _ & _ & _ & _
        & Hrun & _ & Hlog).
  exists staged. split; [exact Hrun | exact Hlog].
Defined.

(** The videos table is written at most once, and only after the object
    store has accepted the object: in every run the table is either as it
    was, or it is the old table with the target row carrying the composite
    reference of an object that was put. *)
Theorem table_written_only_after_put (cfg : apiConfig) (env : Env)
    (r : Request) (fs : gset string) (rows : list Video) :
  let out := handlerUploadVideo cfg env r fs rows in
  videos (final out) = rows \/
  exists (dbVideo : Video) (key : string),
    lookupVideo (ID dbVideo) rows = Some dbVideo /\
    In (EvPutObject (s3Bucket cfg) key "video/mp4") (log (final out)) /\
    s3_PutObject env (s3Bucket cfg) key "video/mp4" = None /\
    videos (final out)
    = replaceVideo (with_VideoURL dbVideo (videoURLOf (s3Bucket cfg) key)) rows.
Proof.
  intros out. subst out.
  run_cases out; try (left; reflexivity).
  all: right.
  all: match goal with
       | H : lookupVideo ?id _ = Some ?v,
         Hp : s3_PutObject _ _ ?k _ = None |- _ =>
           pose proof (lookupVideo_ID _ _ _ H); subst; exists v, k
       end.
  all: repeat split; try assumption; try reflexivity; log_mem.
Qed.

(** When the table refuses the update, the handler answers 500 and the
    table is as it was, although the object has been stored: no call
    removes it, and no URL is signed. *)
Theorem persist_failure_leaves_object_behind (cfg : apiConfig) (env : Env)
    (r : Request) (fs : gset string) (rows : list Video) (video : Video)
    (e : error) :
  let out := handlerUploadVideo cfg env r fs rows in
  In (EvUpdateVideo video) (log (final out)) ->
  db_UpdateVideo_err env video = Some e ->
  response out
  = RespondError StatusInternalServerError "Error updating video" (Some e) /\
  videos (final out) = rows /\
  forallb (fun ev => negb (isPresign ev)) (log (final out)) = true /\
  exists key : string,
    VideoURL video = Some (videoURLOf (s3Bucket cfg) key) /\
    In (EvPutObject (s3Bucket cfg) key "video/mp4") (log (final out)) /\
    s3_PutObject env (s3Bucket cfg) key "video/mp4" = None.
Proof.
  intros out Hin Herr. subst out. revert Hin.
  run_cases out; intros Hin; in_log Hin; try congruence.
  all: repeat split; try reflexivity.
  all: match goal with
       | Hp : s3_PutObject _ _ ?k _ = None |- _ => exists k
       end.
  all: repeat split; try assumption; try reflexivity; log_mem.
Qed.

Lemma persist_failure_leaves_object_behind_witness :
  response (Sample.run Scenario.persistFails)
  = RespondError 500 "Error updating video" (Some "database is locked") /\
  videos (final (Sample.run Scenario.persistFails)) = [Sample.row].
Proof.
  unfold Sample.run.
  destruct (persist_failure_leaves_object_behind Sample.cfg
              Scenario.persistFails Sample.request ∅ [Sample.row]
              Scenario.stored "database is locked")
    as (Hresp & Hrows & _).
  - vm_compute. do 10 right. left. reflexivity.
  - reflexivity.
  - split; [exact Hresp | exact Hrows].
Defined.

(** When signing fails the caller gets a 500, but the table has already
    been updated: the row holds the composite reference of the uploaded
    object. *)
Theorem signing_failure_after_persist (cfg : apiConfig) (env : Env)
    (r : Request) (fs : gset string) (rows : list Video) (code : Z)
    (err : option error) :
  let out := handlerUploadVideo cfg env r fs rows in
  response out = RespondError code "Error signing video URL" err ->
  exists (dbVideo : Video) (key bucket' key' : string) (e : error),
    code = StatusInternalServerError /\ err = Some e /\
    bucketAndKey (videoURLOf (s3Bucket cfg) key) = Some (bucket', key') /\
    s3_PresignGetObject env bucket' key' fifteenMinutes = Err e /\
    lookupVideo (ID dbVideo) rows = Some dbVideo /\
    lookupVideo (ID dbVideo) (videos (final out))
    = Some (with_VideoURL dbVideo (videoURLOf (s3Bucket cfg) key)).
Proof.
  intros out Hresp. subst out. revert Hresp.
  run_cases out; intros Hresp; try discriminate Hresp.
  all: injection Hresp as <- <-.
  all: match goal with
       | H : lookupVideo ?id _ = Some ?v,
         Hb : bucketAndKey (videoURLOf _ ?k) = Some (?b', ?k'),
         Hs : s3_PresignGetObject _ _ _ _ = Err ?e |- _ =>
           pose proof (lookupVideo_ID _ _ _ H); subst; exists v, k, b', k', e
       end.
  all: repeat split; try assumption; try reflexivity.
  all: match goal with
       | |- lookupVideo (ID ?v) (replaceVideo ?new ?rs) = _ =>
           exact (lookupVideo_replaceVideo rs v new ltac:(assumption))
       end.
Qed.

Lemma signing_failure_after_persist_witness :
  exists (dbVideo : Video) (key : string),
    lookupVideo (ID dbVideo) (videos (final (Sample.run Scenario.presignFails)))
    = Some (with_VideoURL dbVideo (videoURLOf "tubely-bucket" key)).
Proof.
  unfold Sample.run.
  destruct (signing_failure_after_persist Sample.cfg Scenario.presignFails
              Sample.request ∅ [Sample.row] 500 (Some "expired credentials"))
    as (dbVideo & key & b' & k' & e & _ & _ & _ & _ & _ & Hlook).
  - vm_compute. reflexivity.
  - exists dbVideo, key. exact Hlook.
Defined.

(** ** What a run does to the filesystem *)

Lemma staged_file_removed_witness :
  Sample.staged ∉ files (final (Sample.run Sample.happy)).
Proof.
  unfold Sample.run.
  refine (staged_file_removed Sample.cfg Sample.happy Sample.request ∅
            [Sample.row] Sample.staged _).
  vm_compute. do 4 right. left. reflexivity.
Defined.

Lemma remuxed_file_removed_witness :
  Sample.artifact ∉ files (final (Sample.run Scenario.presignFails)).
Proof.
  unfold Sample.run.
  refine (remuxed_file_removed Sample.cfg Scenario.presignFails Sample.request
            ∅ [Sample.row] Sample.staged Sample.artifact _ _).
  - vm_compute. do 6 right. left. reflexivity.
  - reflexivity.
Defined.

Lemma failed_remux_output_stays_witness :
  Sample.artifact ∈ files (final (Sample.run Sample.remuxFails)).
Proof.
  unfold Sample.run.
  refine (proj2 (proj2 (proj2 (proj2
            (failed_remux_output_stays Sample.cfg Sample.remuxFails
               Sample.request ∅ [Sample.row] Sample.staged Sample.artifact
               "exit status 1" _ _))))).
  - vm_compute. do 6 right. left. reflexivity.
  - reflexivity.
Defined.

(** The only file a run can leave behind that was not there before is the
    output of a remux that failed after writing it. *)
Theorem run_adds_only_failed_remux_output (cfg : apiConfig) (env : Env)
    (r : Request) (fs : gset string) (rows : list Video) (p : string) :
  let out := handlerUploadVideo cfg env r fs rows in
  p ∈ files (final out) ->
  p ∉ fs ->
  exists (staged : string) (e : error),
    os_CreateTemp env stagingPattern = Ok staged /\
    p = staged ++ ".processing" /\
    run_ffmpeg env staged p
    = {| ffmpeg_err := Some e; ffmpeg_wrote := true |} /\
    response out
    = RespondError StatusInternalServerError
        "Error processing video for fast start" (Some e).
Proof.
  intros out Hin Hnew. subst out. unfold stagingPattern. revert Hin.
  run_cases out; intros Hin.
  all: rewrite ?elem_of_difference, ?elem_of_union, ?elem_of_singleton in Hin.
  all: try (exfalso; intuition congruence).
  all: match goal with
       | Hf : run_ffmpeg _ ?t _ = {| ffmpeg_err := Some ?e; ffmpeg_wrote := _ |}
         |- _ =>
           exists t, e;
           assert (Hp : p = t ++ ".processing") by intuition congruence
       end.
  all: rewrite Hp.
  all: repeat split; try assumption; reflexivity.
Qed.

Lemma run_adds_only_failed_remux_output_witness :
  exists e : error,
    run_ffmpeg Sample.remuxFails Sample.staged Sample.artifact
    = {| ffmpeg_err := Some e; ffmpeg_wrote := true |}.
Proof.
  destruct (run_adds_only_failed_remux_output Sample.cfg Sample.remuxFails
              Sample.request ∅ [Sample.row] Sample.artifact)
    as (staged & e & Hcreate & Hp & Hrun & _).
  - apply (bool_decide_eq_true_1
             (Sample.artifact
              ∈ files (final (handlerUploadVideo Sample.cfg Sample.remuxFails
                                Sample.request ∅ [Sample.row])))).
    vm_compute. reflexivity.
  - apply not_elem_of_empty.
  - exists e. injection Hcreate as <-. exact Hrun.
Defined.

(** The only files a run deletes are the staged file and the output of the
    remux: every other path that existed before the request exists after
    it. *)
Theorem run_deletes_only_its_temp_files (cfg : apiConfig) (env : Env)
    (r : Request) (fs : gset string) (rows : list Video) (p : string) :
  let out := handlerUploadVideo cfg env r fs rows in
  p ∈ fs ->
  p ∉ files (final out) ->
  exists staged : string,
    os_CreateTemp env stagingPattern = Ok staged /\
    (p = staged \/ p = staged ++ ".processing").
Proof.
  intros out Hfs Hgone. subst out. unfold stagingPattern. revert Hgone.
  run_cases out; intros Hgone.
  all: try (exfalso; apply Hgone; files_solver).
  all: match goal with
       | |- exists s, Ok ?t = Ok s /\ _ => exists t; split; [reflexivity|]
       end.
  all: match goal with
       | |- ?x = ?t \/ ?x = ?q =>
           destruct (decide (x = t)) as [?|Hne1]; [left; assumption|];
           destruct (decide (x = q)) as [?|Hne2]; [right; assumption|]
       end.
  all: exfalso; apply Hgone; files_solver.
Qed.

Lemma run_deletes_only_its_temp_files_witness :
  exists staged : string,
    os_CreateTemp Sample.happy stagingPattern = Ok staged /\
    (Sample.staged = staged \/ Sample.staged = staged ++ ".processing").
Proof.
  refine (run_deletes_only_its_temp_files Sample.cfg Sample.happy
            Sample.request {[ Sample.staged ]} [Sample.row] Sample.staged
            _ _).
  - apply elem_of_singleton. reflexivity.
  - apply (bool_decide_eq_false_1
             (Sample.staged
              ∈ files (final (handlerUploadVideo Sample.cfg Sample.happy
                                Sample.request {[ Sample.staged ]}
                                [Sample.row])))).
    vm_compute. reflexivity.
Defined.

(** Nothing is retried: a run remuxes, uploads, updates the table and
    signs at most once each. *)
Theorem no_step_is_retried (cfg : apiConfig) (env : Env) (r : Request)
    (fs : gset string) (rows : list Video) :
  let calls := log (final (handlerUploadVideo cfg env r fs rows)) in
  (length (List.filter isFfmpeg calls) <= 1)%nat /\
  (length (List.filter isPutObject calls) <= 1)%nat /\
  (length (List.filter isUpdateVideo calls) <= 1)%nat /\
  (length (List.filter isPresign calls) <= 1)%nat.
Proof.
  intros calls. subst calls.
  run_cases out; simpl; lia.
Qed.

(** A run that answers 200 leaves the filesystem exactly as it found it,
    apart from its two temporary paths, which do not exist afterwards. *)
Theorem success_leaves_no_local_files (cfg : apiConfig) (env : Env)
    (r : Request) (fs : gset string) (rows : list Video) (payload : Video) :
  let out := handlerUploadVideo cfg env r fs rows in
  response out = RespondJSON StatusOK payload ->
  exists staged : string,
    os_CreateTemp env stagingPattern = Ok staged /\
    files (final out) = fs ∖ {[ staged ]} ∖ {[ staged ++ ".processing" ]}.
Proof.
  intros out Hresp. subst out. unfold stagingPattern. revert Hresp.
  run_cases out; intros Hresp; try discriminate Hresp.
  all: match goal with
       | |- exists s, Ok ?t = Ok s /\ _ => exists t; split; [reflexivity|]
       end.
  all: apply set_eq; intros x.
  all: rewrite ?elem_of_difference, ?elem_of_union, ?elem_of_singleton.
  all: intuition congruence.
Qed.

Lemma success_leaves_no_local_files_witness :
  files (final (Sample.run Sample.happy))
  = (∅ : gset string) ∖ {[ Sample.staged ]} ∖ {[ Sample.artifact ]}.
Proof.
  unfold Sample.run.
  destruct (success_leaves_no_local_files Sample.cfg Sample.happy
              Sample.request ∅ [Sample.row]
              (with_VideoURL Sample.row "https://signed.example/url"))
    as (staged & Hcreate & Hfiles).
  - vm_compute. reflexivity.
  - injection Hcreate as <-. exact Hfiles.
Defined.

(** ** The stored reference and the signing conversion *)

(** [strings.Split] cuts at every comma and the conversion takes the first
    two components: of a reference with a second comma, the text after it
    is not part of the key that is signed. *)
Theorem reference_cut_at_second_comma (bucket key rest : string) :
  containsComma bucket = false ->
  containsComma key = false ->
  bucketAndKey (bucket ++ "," ++ key ++ "," ++ rest) = Some (bucket, key) /\
  length (strings_Split_comma (bucket ++ "," ++ key ++ "," ++ rest))
  = S (S (length (strings_Split_comma rest))).
Proof.
  intros Hb Hk. unfold bucketAndKey.
  rewrite (strings_Split_comma_cut _ _ Hb), (strings_Split_comma_cut _ _ Hk).
  split; reflexivity.
Qed.

Lemma reference_cut_at_second_comma_witness :
  bucketAndKey "tubely-bucket,landscape/a,b.mp4"
  = Some ("tubely-bucket", "landscape/a").
Proof.
  refine (proj1 (reference_cut_at_second_comma "tubely-bucket" "landscape/a"
                   "b.mp4" _ _)); reflexivity.
Defined.

(** The signing conversion on a reference with a comma: exactly one presign
    call, for the first two components and fifteen minutes; on success the
    record comes back with only its reference replaced, on failure it comes
    back unchanged with the error; the table and the filesystem are not
    touched either way. *)
Theorem signing_replaces_only_the_reference (env : Env) (video : Video)
    (fr : Frame) (url : string) :
  VideoURL video = Some url ->
  containsComma url = true ->
  exists (bucket key : string),
    bucketAndKey url = Some (bucket, key) /\
    let '(step, fr') := dbVideoToSignedVideo env video fr in
    log fr' = (log fr ++ [EvPresign bucket key (15 * 60 * 1000000000)])%list /\
    videos fr' = videos fr /\ files fr' = files fr /\
    match s3_PresignGetObject env bucket key fifteenMinutes with
    | Ok signedURL =>
        exists signed : Video,
          step = Next (signed, None) /\
          VideoURL signed = Some signedURL /\
          ID signed = ID video /\ UserID signed = UserID video /\
          ThumbnailURL signed = ThumbnailURL video
    | Err e => step = Next (video, Some e)
    end.
Proof.
  intros Hurl Hcomma.
  destruct (bucketAndKey url) as [[bucket key]|] eqn:Hbk;
    [|exfalso; exact (bucketAndKey_some _ Hcomma Hbk)].
  exists bucket, key. split; [reflexivity|].
  unfold dbVideoToSignedVideo, generatePresignedURL. rewrite Hurl, Hbk.
  run_simpl.
  destruct (s3_PresignGetObject env bucket key fifteenMinutes) as [signedURL|e];
    run_simpl; repeat split.
  exists (with_VideoURL video signedURL). repeat split.
Qed.

Lemma signing_replaces_only_the_reference_witness :
  exists (bucket key : string),
    bucketAndKey (videoURLOf "tubely-bucket" Sample.key) = Some (bucket, key).
Proof.
  destruct (signing_replaces_only_the_reference Sample.happy Scenario.stored
              Sample.emptyFrame
              (videoURLOf "tubely-bucket" Sample.key))
    as (bucket & key & Hbk & _); [reflexivity | reflexivity |].
  exists bucket, key. exact Hbk.
Defined.

(** ** Keys do not collide *)

Lemma lor_shiftl_add (hi lo k : N) :
  (lo < 2 ^ k)%N -> N.lor (N.shiftl hi k) lo = (hi * 2 ^ k + lo)%N.
Proof.
  intros Hlo.
  assert (Hdisj : N.land (N.shiftl hi k) lo = 0%N).
  { apply N.bits_inj. intros n. rewrite N.land_spec, N.bits_0.
    destruct (N.lt_ge_cases n k) as [Hn|Hn].
    - rewrite (N.shiftl_spec_low _ _ _ Hn). reflexivity.
    - destruct (N.eq_dec lo 0%N) as [->|Hne];
        [rewrite N.bits_0; apply andb_false_r|].
      rewrite (N.bits_above_log2 lo n); [apply andb_false_r|].
      apply N.lt_le_trans with k; [|exact Hn].
      apply N.log2_lt_pow2; [lia | exact Hlo]. }
  rewrite <- (N.lxor_lor _ _ Hdisj), <- (N.add_nocarry_lxor _ _ Hdisj).
  rewrite N.shiftl_mul_pow2. reflexivity.
Qed.

Lemma uint_lt (b : Byte.byte) : (Base64.uint b < 256)%N.
Proof. unfold Base64.uint. pose proof (Byte.to_N_bounded b). lia. Qed.

Lemma uint_inj (a b : Byte.byte) : Base64.uint a = Base64.uint b -> a = b.
Proof.
  unfold Base64.uint. intros H.
  apply (f_equal Byte.of_N) in H. rewrite !Byte.of_to_N in H.
  injection H as H. exact H.
Qed.

(** The 24-bit group of three bytes, as a number. *)
Lemma group_value (x y z : N) :
  (y < 256)%N -> (z < 256)%N ->
  N.lor (N.lor (N.shiftl x 16) (N.shiftl y 8)) z
  = (x * 65536 + y * 256 + z)%N.
Proof.
  intros Hy Hz.
  rewrite (lor_shiftl_add x (N.shiftl y 8) 16)
    by (rewrite N.shiftl_mul_pow2; change (2 ^ 8)%N with 256%N;
        change (2 ^ 16)%N with 65536%N; lia).
  rewrite N.shiftl_mul_pow2.
  change (2 ^ 8)%N with 256%N. change (2 ^ 16)%N with 65536%N.
  replace (x * 65536 + y * 256)%N with (N.shiftl (x * 256 + y) 8)
    by (rewrite N.shiftl_mul_pow2; change (2 ^ 8)%N with 256%N; lia).
  rewrite (lor_shiftl_add _ z 8) by exact Hz.
  rewrite N.shiftl_mul_pow2. reflexivity.
Qed.

Lemma sextet_div (val k : N) :
  Base64.sextet val k = ((val / 2 ^ k) mod 64)%N.
Proof.
  unfold Base64.sextet. change 63%N with (N.ones 6).
  rewrite N.land_ones, N.shiftr_div_pow2. reflexivity.
Qed.

(** A group below 2^24 is determined by its four sextets, the first
    three determine it up to its last six bits, and the first two up to
    its last twelve. *)
Lemma sextets_top (v w : N) :
  (v < 16777216)%N -> (w < 16777216)%N ->
  Base64.sextet v 18 = Base64.sextet w 18 ->
  Base64.sextet v 12 = Base64.sextet w 12 ->
  (v / 4096 = w / 4096)%N.
Proof.
  rewrite !sextet_div.
  change (2 ^ 18)%N with 262144%N. change (2 ^ 12)%N with 4096%N.
  intros. zify. Z.to_euclidean_division_equations. lia.
Qed.

Lemma sextets_mid (v w : N) :
  (v / 4096 = w / 4096)%N ->
  Base64.sextet v 6 = Base64.sextet w 6 ->
  (v / 64 = w / 64)%N.
Proof.
  rewrite !sextet_div. change (2 ^ 6)%N with 64%N.
  intros. zify. Z.to_euclidean_division_equations. lia.
Qed.

Lemma sextets_low (v w : N) :
  (v / 64 = w / 64)%N ->
  Base64.sextet v 0 = Base64.sextet w 0 ->
  v = w.
Proof.
  rewrite !sextet_div. change (2 ^ 0)%N with 1%N. rewrite !N.div_1_r.
  intros. zify. Z.to_euclidean_division_equations. lia.
Qed.

Lemma sextets_determine (v w : N) :
  (v < 16777216)%N -> (w < 16777216)%N ->
  Base64.sextet v 18 = Base64.sextet w 18 ->
  Base64.sextet v 12 = Base64.sextet w 12 ->
  (Base64.sextet v 6 = Base64.sextet w 6 ->
   Base64.sextet v 0 = Base64.sextet w 0 -> v = w) /\
  (Base64.sextet v 6 = Base64.sextet w 6 -> (v / 64 = w / 64)%N) /\
  (v / 4096 = w / 4096)%N.
Proof.
  intros Hv Hw H18 H12.
  pose proof (sextets_top v w Hv Hw H18 H12) as Htop.
  repeat split; auto using sextets_mid, sextets_low.
Qed.

Lemma alphabet_index_encode_at (i : N) :
  (i < 64)%N -> alphabet_index (Base64.encode_at i) = i.
Proof.
  intros Hi.
  assert (Hall : forallb (fun n => N.eqb (alphabet_index
                                           (Base64.encode_at (N.of_nat n)))
                                         (N.of_nat n))
                   (seq 0 64) = true) by (vm_compute; reflexivity).
  rewrite forallb_forall in Hall.
  rewrite <- (N2Nat.id i). apply N.eqb_eq, Hall, in_seq. lia.
Qed.

Lemma encode_at_sextet_inj (v w k : N) :
  Base64.encode_at (Base64.sextet v k) = Base64.encode_at (Base64.sextet w k) ->
  Base64.sextet v k = Base64.sextet w k.
Proof.
  intros H. apply (f_equal alphabet_index) in H.
  rewrite !alphabet_index_encode_at in H by apply sextet_lt. exact H.
Qed.

(** The encoding is injective: two byte slices with the same encoding are
    the same slice. *)
Lemma Encode_inj (a : list Byte.byte) :
  forall b, Base64.Encode a = Base64.Encode b -> a = b.
Proof.
  induction a as [|a0|a0 a1|a0 a1 a2 rest IH] using triples_ind;
    intros [|b0 [|b1 [|b2 rest']]] H; cbn [Base64.Encode] in H;
    try discriminate H; try reflexivity.
  - (* one byte *)
    injection H as H18 H12.
    apply encode_at_sextet_inj in H18, H12.
    pose proof (uint_lt a0) as Ha. pose proof (uint_lt b0) as Hb.
    rewrite !N.shiftl_mul_pow2 in H18, H12.
    change (2 ^ 16)%N with 65536%N in *.
    assert (Heq : Base64.uint a0 = Base64.uint b0).
    { destruct (sextets_determine (Base64.uint a0 * 65536)
                  (Base64.uint b0 * 65536)) as (_ & _ & Hq);
        [lia | lia | exact H18 | exact H12 |].
      zify; Z.to_euclidean_division_equations; lia. }
    apply uint_inj in Heq. subst. reflexivity.
  - (* two bytes *)
    injection H as H18 H12 H6.
    apply encode_at_sextet_inj in H18, H12, H6.
    pose proof (uint_lt a0). pose proof (uint_lt b0).
    pose proof (uint_lt a1). pose proof (uint_lt b1).
    rewrite <- (N.lor_0_r (N.lor (N.shiftl (Base64.uint a0) 16) _)) in H18, H12, H6.
    rewrite <- (N.lor_0_r (N.lor (N.shiftl (Base64.uint b0) 16) _)) in H18, H12, H6.
    rewrite !group_value in H18, H12, H6 by lia.
    assert (Heq : Base64.uint a0 = Base64.uint b0
                  /\ Base64.uint a1 = Base64.uint b1).
    { destruct (sextets_determine
                  (Base64.uint a0 * 65536 + Base64.uint a1 * 256 + 0)
                  (Base64.uint b0 * 65536 + Base64.uint b1 * 256 + 0))
        as (_ & Hq & _); [lia | lia | exact H18 | exact H12 |].
      specialize (Hq H6).
      split; zify; Z.to_euclidean_division_equations; lia. }
    destruct Heq as [E0 E1]. apply uint_inj in E0, E1. subst. reflexivity.
  - (* three bytes and the rest *)
    injection H as H18 H12 H6 H0 Hrest.
    apply encode_at_sextet_inj in H18, H12, H6, H0.
    pose proof (uint_lt a0). pose proof (uint_lt b0).
    pose proof (uint_lt a1). pose proof (uint_lt b1).
    pose proof (uint_lt a2). pose proof (uint_lt b2).
    rewrite !group_value in H18, H12, H6, H0 by lia.
    assert (Heq : Base64.uint a0 = Base64.uint b0
                  /\ Base64.uint a1 = Base64.uint b1
                  /\ Base64.uint a2 = Base64.uint b2).
    { destruct (sextets_determine
                  (Base64.uint a0 * 65536 + Base64.uint a1 * 256
                   + Base64.uint a2)
                  (Base64.uint b0 * 65536 + Base64.uint b1 * 256
                   + Base64.uint b2))
        as (Hv & _ & _); [lia | lia | exact H18 | exact H12 |].
      specialize (Hv H6 H0). lia. }
    destruct Heq as (E0 & E1 & E2). apply uint_inj in E0, E1, E2. subst.
    f_equal. f_equal. f_equal. apply IH, Hrest.
Qed.

Lemma list_ascii_of_append (a b : string) :
  list_ascii_of_string (a ++ b)
  = (list_ascii_of_string a ++ list_ascii_of_string b)%list.
Proof. induction a as [|c a IH]; simpl; [reflexivity|]. rewrite IH. reflexivity. Qed.

Lemma append_inv_head (p a b : string) : p ++ a = p ++ b -> a = b.
Proof.
  induction p as [|c p IH]; simpl; intros H; [exact H|].
  injection H as H. exact (IH H).
Qed.

Lemma append_inv_tail (a b s : string) : a ++ s = b ++ s -> a = b.
Proof.
  intros H. apply (f_equal list_ascii_of_string) in H.
  rewrite !list_ascii_of_append in H. apply app_inv_tail in H.
  apply (f_equal string_of_list_ascii) in H.
  rewrite !string_of_list_ascii_of_string in H. exact H.
Qed.

Lemma string_of_list_byte_inj (a b : list Byte.byte) :
  string_of_list_byte a = string_of_list_byte b -> a = b.
Proof.
  intros H. apply (f_equal list_byte_of_string) in H.
  rewrite !list_byte_of_string_of_list_byte in H. exact H.
Qed.

(** Two uploads get the same key only if they were classified alike and
    drew the same 32 bytes from the random source: the key is an injective
    function of the prefix and the raw identifier. *)
Theorem keys_do_not_collide (prefix1 prefix2 mediaType : string)
    (random1 random2 : list Byte.byte) :
  isClassificationPrefix prefix1 ->
  isClassificationPrefix prefix2 ->
  s3VideoKey prefix1 (s3VideoID (rawVideoID random1)) mediaType
  = s3VideoKey prefix2 (s3VideoID (rawVideoID random2)) mediaType ->
  prefix1 = prefix2 /\ rawVideoID random1 = rawVideoID random2.
Proof.
  intros Hp1 Hp2 Hkey. unfold s3VideoKey in Hkey.
  assert (Hsame : prefix1 = prefix2).
  { destruct Hp1 as [->|[->| ->]], Hp2 as [->|[->| ->]];
      try reflexivity; simpl in Hkey; discriminate Hkey. }
  subst prefix2. split; [reflexivity|].
  apply append_inv_head in Hkey. apply (append_inv_head "/") in Hkey.
  apply append_inv_tail in Hkey.
  apply string_of_list_byte_inj in Hkey.
  rewrite !s3VideoID_Encode in Hkey. apply Encode_inj, Hkey.
Qed.

Lemma keys_do_not_collide_witness :
  rawVideoID (repeat Byte.xff 32)
  = rawVideoID (repeat Byte.xff 32 ++ [Byte.x00]).
Proof.
  refine (proj2 (keys_do_not_collide "landscape" "landscape" "video/mp4"
                   (repeat Byte.xff 32) (repeat Byte.xff 32 ++ [Byte.x00])
                   _ _ _)).
  - left. reflexivity.
  - left. reflexivity.
  - vm_compute. reflexivity.
Defined.

(** ** The order of the calls *)

(** The calls of a run that answers 200, in order: lookup, form, staging,
    probe, remux, open, random bytes, put, update, presign; then the
    deferred calls, last registered first. *)
Theorem successful_run_calls (cfg : apiConfig) (env : Env) (r : Request)
    (fs : gset string) (rows : list Video) (code : Z) (payload : Video) :
  let out := handlerUploadVideo cfg env r fs rows in
  response out = RespondJSON code payload ->
  exists (videoID : UUID) (staged key bucket' key' : string) (stored : Video),
    let remuxed := staged ++ ".processing" in
    log (final out)
    = [EvGetVideo videoID; EvParseMultipartForm; EvFormFile "video";
       EvCreateTemp "video-upload-*.mp4"; EvCopy staged; EvFfprobe staged;
       EvFfmpeg staged remuxed; EvOpen remuxed; EvRandRead 32;
       EvPutObject (s3Bucket cfg) key "video/mp4"; EvUpdateVideo stored;
       EvPresign bucket' key' fifteenMinutes;
       EvClose remuxed; EvRemove remuxed; EvClose staged; EvRemove staged;
       EvClose "formFile"].
Proof.
  intros out Hresp. subst out. revert Hresp.
  run_cases out; intros Hresp; try discriminate Hresp.
  all: try (exfalso;
            match goal with
            | H : bucketAndKey (videoURLOf ?b ?k) = None |- _ =>
                exact (bucketAndKey_some _ (containsComma_videoURLOf b k) H)
            end).
  all: do 6 eexists; reflexivity.
Qed.

Lemma successful_run_calls_witness :
  exists (key' : string) (stored : Video),
    nth_error (log (final (Sample.run Sample.happy))) 10
    = Some (EvUpdateVideo stored) /\
    nth_error (log (final (Sample.run Sample.happy))) 11
    = Some (EvPresign "tubely-bucket" key' fifteenMinutes).
Proof.
  unfold Sample.run.
  destruct (successful_run_calls Sample.cfg Sample.happy Sample.request ∅
              [Sample.row] 200
              (with_VideoURL Sample.row "https://signed.example/url"))
    as (videoID & staged & key & bucket' & key' & stored & Hlog).
  - vm_compute. reflexivity.
  - cbv zeta in Hlog. rewrite Hlog.
    assert (Hb : bucket' = "tubely-bucket").
    { apply (f_equal (fun l => nth_error l 11)) in Hlog.
      vm_compute in Hlog. injection Hlog as Hb _. symmetry. exact Hb. }
    subst bucket'. exists key', stored. split; reflexivity.
Defined.

Lemma exact_ratios_classified_witness :
  classifyReport {| Streams := [mkStream 2560 1440 ""] |} = Ok "landscape" /\
  classifyReport {| Streams := [mkStream 1440 2560 ""] |} = Ok "portrait" /\
  classifyReport {| Streams := [mkStream 160 160 ""] |} = Ok "other".
Proof.
  refine (exact_ratios_classified 160 _). lia.
Defined.

(* ================================================================= *)
(** * Properties of the thumbnail handler *)

Ltac thumb_unfold :=
  unfold handlerUploadThumbnail, uploadThumbnailBody, th_GetVideo,
    th_UpdateVideo, Create.

Ltac thumb_simpl :=
  cbv beta iota zeta delta
    [th_bind th_ret th_emit th_deferClose th_setFiles th_setVideos
     th_getVideos th_orRespond th_nilOrRespond th_respondWithError
     th_respondWithJSON th_runDefers th_files th_videos th_deferred th_log
     th_final th_response negb] in *.

(** One step of a run of the thumbnail handler, in program order. *)
Ltac thumb_step os_Create :=
  lazymatch goal with
  | |- context [uuid_Parse ?e ?s] => destruct (uuid_Parse e s) eqn:?
  | |- context [auth_GetBearerToken ?e ?h] =>
      destruct (auth_GetBearerToken e h) eqn:?
  | |- context [auth_ValidateJWT ?e ?t ?s] =>
      destruct (auth_ValidateJWT e t s) eqn:?
  | |- context [lookupVideo ?i ?rows] => destruct (lookupVideo i rows) eqn:?
  | |- context [N.eqb (UserID ?v) ?u] => destruct (N.eqb_spec (UserID v) u)
  | |- context [ParseMultipartForm ?e ?r] =>
      destruct (ParseMultipartForm e r) eqn:?
  | |- context [r_FormFile ?e ?r ?n] => destruct (r_FormFile e r n) eqn:?
  | |- context [rand_Read ?e ?n] => destruct (rand_Read e n) eqn:?
  | |- context [os_Create ?p] => destruct (os_Create p) eqn:?
  | |- context [io_Copy ?e ?p ?c] => destruct (io_Copy e p c) eqn:?
  | |- context [db_UpdateVideo_err ?e ?v] =>
      destruct (db_UpdateVideo_err e v) eqn:?
  end; simplify_eq; thumb_simpl.

Ltac thumb_cases out os_Create :=
  let Hout := fresh "Hout" in
  remember (handlerUploadThumbnail _ _ _ _ _ _ _) as out eqn:Hout;
  symmetry in Hout; revert Hout;
  thumb_unfold; thumb_simpl; repeat thumb_step os_Create;
  intros Hout; subst out; thumb_simpl.

(** As for videos, a thumbnail for somebody else's record is refused with
    401 before the form is parsed or any file is created. *)
Theorem thumbnail_not_owner_rejected (cfg : apiConfig) (assets : assetConfig)
    (env : Env) (os_Create : string -> option error) (r : Request)
    (fs : gset string) (rows : list Video) (videoID userID : UUID)
    (token : string) (dbVideo : Video) :
  uuid_Parse env (PathValue_videoID r) = Ok videoID ->
  auth_GetBearerToken env (Header r) = Ok token ->
  auth_ValidateJWT env token (jwtSecret cfg) = Ok userID ->
  lookupVideo videoID rows = Some dbVideo ->
  UserID dbVideo <> userID ->
  let out := handlerUploadThumbnail cfg assets env os_Create r fs rows in
  th_response out
  = RespondError StatusUnauthorized "User does not own video" None /\
  th_log (th_final out) = [ThGetVideo videoID] /\
  th_files (th_final out) = fs /\
  th_videos (th_final out) = rows.
Proof.
  intros H1 H2 H3 H4 H5 out. subst out.
  thumb_unfold. rewrite H1, H2. thumb_simpl. rewrite H3. thumb_simpl.
  rewrite H4. thumb_simpl.
  destruct (N.eqb_spec (UserID dbVideo) userID); [contradiction|].
  thumb_simpl. repeat split; reflexivity.
Qed.

Lemma thumbnail_not_owner_rejected_witness :
  th_response (Thumb.run (Thumb.env Sample.stranger "image/png"))
  = RespondError 401 "User does not own video" None.
Proof.
  unfold Thumb.run.
  refine (proj1 (thumbnail_not_owner_rejected Sample.cfg Thumb.assets
                   (Thumb.env Sample.stranger "image/png") Thumb.created
                   Sample.request ∅ [Sample.row] Sample.videoID
                   Sample.stranger "owner-token" Sample.row _ _ _ _ _));
    try reflexivity.
  discriminate.
Defined.

Lemma length_thumbnailID (random : list Byte.byte) :
  thumbnailID random = Base64.Encode (fill (make_bytes 32) random) /\
  String.length (string_of_list_byte (thumbnailID random)) = 43%nat /\
  urlsafeString (string_of_list_byte (thumbnailID random)) = true.
Proof.
  assert (H : thumbnailID random = Base64.Encode (fill (make_bytes 32) random)).
  { unfold thumbnailID. apply fill_exact.
    rewrite length_make_bytes. apply length_Encode. }
  rewrite H. split; [reflexivity|]. split.
  - rewrite length_string_of_list_byte, length_Encode, length_fill,
      length_make_bytes. reflexivity.
  - apply urlsafeString_of_bytes, Encode_urlsafe.
Qed.

(** What a 200 from the thumbnail handler means: the part was written to
    "{assetsRoot}/{token}.{ext}", the token being 43 URL-safe characters and
    the extension the one of the declared content type; that file exists;
    the row in the table and the payload are the old row with its
    thumbnail reference set to "http://localhost:{port}/{path}" and its
    video reference untouched. *)
Theorem thumbnail_success (cfg : apiConfig) (assets : assetConfig)
    (env : Env) (os_Create : string -> option error) (r : Request)
    (fs : gset string) (rows : list Video) (code : Z) (payload : Video) :
  let out := handlerUploadThumbnail cfg assets env os_Create r fs rows in
  th_response out = RespondJSON code payload ->
  exists (dbVideo : Video) (part : FormFile) (random : list Byte.byte),
    let token := string_of_list_byte (thumbnailID random) in
    let path := assetsRoot assets ++ "/" ++ token ++ "."
                ++ mediaTypeToFileExtension (ContentType part) in
    code = StatusOK /\
    lookupVideo (ID dbVideo) rows = Some dbVideo /\
    r_FormFile env r "thumbnail" = Ok part /\
    rand_Read env 32 = Ok random /\
    String.length token = 43%nat /\ urlsafeString token = true /\
    path ∈ th_files (th_final out) /\
    payload
    = with_ThumbnailURL dbVideo
        ("http://localhost:" ++ port assets ++ "/" ++ path) /\
    VideoURL payload = VideoURL dbVideo /\
    lookupVideo (ID dbVideo) (th_videos (th_final out)) = Some payload.
Proof.
  intros out Hresp. subst out. revert Hresp.
  thumb_cases out os_Create; intros Hresp; try discriminate Hresp.
  injection Hresp as <- <-.
  match goal with
  | H : lookupVideo ?id _ = Some ?v, Hp : r_FormFile _ _ _ = Ok ?p,
    Hr : rand_Read _ _ = Ok ?rnd |- _ =>
      pose proof (lookupVideo_ID _ _ _ H); subst; exists v, p, rnd;
      pose proof (length_thumbnailID rnd) as (_ & Hlen & Hsafe)
  end.
  cbv zeta. repeat split; try assumption; try reflexivity.
  - unfold thumbnailPath. files_solver.
  - match goal with
    | |- lookupVideo (ID ?v) (replaceVideo ?new ?rs) = _ =>
        exact (lookupVideo_replaceVideo rs v new ltac:(assumption))
    end.
Qed.

Lemma thumbnail_success_witness :
  exists dbVideo : Video,
    lookupVideo (ID dbVideo)
      (th_videos (th_final (Thumb.run (Thumb.env Sample.owner "image/png"))))
    = Some (with_ThumbnailURL Sample.row
              ("http://localhost:8091/./assets/" ++ Thumb.token ++ ".png")).
Proof.
  unfold Thumb.run.
  destruct (thumbnail_success Sample.cfg Thumb.assets
              (Thumb.env Sample.owner "image/png") Thumb.created
              Sample.request ∅ [Sample.row] 200
              (with_ThumbnailURL Sample.row
                 ("http://localhost:8091/./assets/" ++ Thumb.token ++ ".png")))
    as (dbVideo & part & random & _ & _ & _ & _ & _ & _ & _ & _ & _ & Hlook).
  - vm_compute. reflexivity.
  - exists dbVideo. exact Hlook.
Defined.

(** The thumbnail handler does not check the declared content type: when
    every step succeeds it answers 200 whatever the type is, and for a type
    outside image/jpeg, image/png and image/gif the file is stored under a
    name that ends in a dot. *)
Theorem thumbnail_type_is_not_checked (cfg : apiConfig)
    (assets : assetConfig) (env : Env) (os_Create : string -> option error)
    (r : Request) (fs : gset string) (rows : list Video) (videoID : UUID)
    (token : string) (dbVideo : Video) (part : FormFile)
    (random : list Byte.byte) :
  uuid_Parse env (PathValue_videoID r) = Ok videoID ->
  auth_GetBearerToken env (Header r) = Ok token ->
  auth_ValidateJWT env token (jwtSecret cfg) = Ok (UserID dbVideo) ->
  lookupVideo videoID rows = Some dbVideo ->
  ParseMultipartForm env r = None ->
  r_FormFile env r "thumbnail" = Ok part ->
  rand_Read env 32 = Ok random ->
  let path := thumbnailPath assets random (ContentType part) in
  os_Create path = None ->
  io_Copy env path (Content part) = None ->
  db_UpdateVideo_err env
    (with_ThumbnailURL dbVideo (thumbnailURLOf assets path)) = None ->
  let out := handlerUploadThumbnail cfg assets env os_Create r fs rows in
  th_response out
  = RespondJSON StatusOK
      (with_ThumbnailURL dbVideo (thumbnailURLOf assets path)) /\
  path ∈ th_files (th_final out) /\
  (isKnownImageType (ContentType part) = false ->
   path = assetsRoot assets ++ "/"
          ++ string_of_list_byte (thumbnailID random) ++ ".").
Proof.
  intros H1 H2 H3 H4 H5 H6 H7 path H8 H9 H10 out. subst out.
  split; [|split].
  - thumb_unfold. rewrite H1, H2. thumb_simpl. rewrite H3. thumb_simpl.
    rewrite H4. thumb_simpl. rewrite N.eqb_refl, H5, H6, H7. thumb_simpl.
    fold path. rewrite H8. thumb_simpl. rewrite H9. thumb_simpl.
    rewrite H10. reflexivity.
  - thumb_unfold. rewrite H1, H2. thumb_simpl. rewrite H3. thumb_simpl.
    rewrite H4. thumb_simpl. rewrite N.eqb_refl, H5, H6, H7. thumb_simpl.
    fold path. rewrite H8. thumb_simpl. rewrite H9. thumb_simpl.
    rewrite H10. thumb_simpl. files_solver.
  - intros Hunknown. unfold path, thumbnailPath, mediaTypeToFileExtension.
    unfold isKnownImageType in Hunknown.
    apply orb_false_elim in Hunknown as [Hunknown Hgif].
    apply orb_false_elim in Hunknown as [Hjpeg Hpng].
    rewrite Hjpeg, Hpng, Hgif. reflexivity.
Qed.

Lemma thumbnail_type_is_not_checked_witness :
  th_response (Thumb.run (Thumb.env Sample.owner "text/plain"))
  = RespondJSON 200
      (with_ThumbnailURL Sample.row
         ("http://localhost:8091/./assets/" ++ Thumb.token ++ ".")).
Proof.
  unfold Thumb.run.
  refine (proj1 (thumbnail_type_is_not_checked Sample.cfg Thumb.assets
                   (Thumb.env Sample.owner "text/plain") Thumb.created
                   Sample.request ∅ [Sample.row] Sample.videoID "owner-token"
                   Sample.row {| ContentType := "text/plain"; Content := [] |}
                   (repeat Byte.xff 32) _ _ _ _ _ _ _ _ _ _));
    reflexivity.
Defined.

(** The thumbnail handler never removes a file: every path that existed
    before the request exists after it, and so does the asset file once it
    has been created, also when the copy or the update of the table fails
    afterwards. *)
Theorem thumbnail_file_is_never_removed (cfg : apiConfig)
    (assets : assetConfig) (env : Env) (os_Create : string -> option error)
    (r : Request) (fs : gset string) (rows : list Video) :
  let out := handlerUploadThumbnail cfg assets env os_Create r fs rows in
  fs ⊆ th_files (th_final out) /\
  (forall path, In (ThCopy path) (th_log (th_final out)) ->
     path ∈ th_files (th_final out)) /\
  (forall path e, In (ThCopy path) (th_log (th_final out)) ->
     th_response out
     = RespondError StatusInternalServerError "Error copying file" (Some e) ->
     path ∈ th_files (th_final out) /\ th_videos (th_final out) = rows).
Proof.
  intros out. subst out. split; [|split].
  - thumb_cases out os_Create; intros x Hx; files_solver.
  - intros path. thumb_cases out os_Create; intros Hin; in_log Hin;
      files_solver.
  - intros path e. thumb_cases out os_Create; intros Hin Hresp; in_log Hin;
      try discriminate Hresp.
    split; [files_solver | reflexivity].
Qed.

Lemma thumbnail_file_is_never_removed_witness :
  ("./assets/" ++ Thumb.token ++ ".png")
  ∈ th_files (th_final (Thumb.run (Thumb.env Sample.owner "image/png"))).
Proof.
  unfold Thumb.run.
  refine (proj1 (proj2 (thumbnail_file_is_never_removed Sample.cfg
                          Thumb.assets (Thumb.env Sample.owner "image/png")
                          Thumb.created Sample.request ∅ [Sample.row]))
            _ _).
  vm_compute. do 5 right. left. reflexivity.
Defined.

(** The only thing the thumbnail handler closes is the uploaded part: the
    asset file it created is never closed by the handler, on any path. *)
Theorem thumbnail_closes_only_the_form_file (cfg : apiConfig)
    (assets : assetConfig) (env : Env) (os_Create : string -> option error)
    (r : Request) (fs : gset string) (rows : list Video) (what : string) :
  let out := handlerUploadThumbnail cfg assets env os_Create r fs rows in
  In (ThClose what) (th_log (th_final out)) ->
  what = "formFile" /\
  exists part, r_FormFile env r "thumbnail" = Ok part.
Proof.
  intros out Hin. subst out. revert Hin.
  thumb_cases out os_Create; intros Hin; in_log Hin; eauto.
Qed.

Lemma thumbnail_closes_only_the_form_file_witness :
  exists part,
    r_FormFile (Thumb.env Sample.owner "image/png") Sample.request "thumbnail"
    = Ok part.
Proof.
  refine (proj2 (thumbnail_closes_only_the_form_file Sample.cfg Thumb.assets
                   (Thumb.env Sample.owner "image/png") Thumb.created
                   Sample.request ∅ [Sample.row] "formFile" _)).
  vm_compute. do 7 right. left. reflexivity.
Defined.
